(** * npy2mat: batch conversion of .npy array files to .mat containers

    A shallow embedding of the conversion code of the repository, in its two
    forms: the package ([utils.py], [processing.py]) and the single-file
    application ([npy2mat.py], class [Npy2Mat]).

    Python strings are [string]; a dict with string keys is a [gmap string _];
    the logger, the popups and the calls into numpy, scipy and [os] are
    recorded as events of a trace; an exception is an [outcome] that is
    threaded through a small state-and-error monad.  [os.path] is
    [posixpath]. *)

From Stdlib Require Import Ascii.
From stdpp Require Import base strings gmap list pretty.

(** ** Python strings *)

Module Py.

(** [len(s)] *)
Definition len (s : string) : nat := String.length s.

(** [s[:i]] for [0 <= i] *)
Definition slice_to (i : nat) (s : string) : string :=
  String.substring 0 i s.

(** [s[i:]] for [0 <= i] *)
Definition slice_from (i : nat) (s : string) : string :=
  String.substring i (len s - i) s.

(** [s.endswith(suffix)]: the tail of [s] of the length of [suffix] is
    compared with [suffix], character by character. *)
Definition endswith (s suffix : string) : bool :=
  if len s <? len suffix then false
  else bool_decide (String.substring (len s - len suffix) (len suffix) s = suffix).

(** [s.startswith(prefix)] *)
Definition startswith (s prefix : string) : bool :=
  if len s <? len prefix then false
  else bool_decide (String.substring 0 (len prefix) s = prefix).

(** [s.rfind(c)] for a one-character [c]: the highest index of [c] in
    [s], or [-1]. *)
Fixpoint rfind_nat (c : ascii) (s : string) : option nat :=
  match s with
  | EmptyString => None
  | String a s' =>
      match rfind_nat c s' with
      | Some i => Some (S i)
      | None => if decide (a = c) then Some 0 else None
      end
  end.

Definition rfind (s : string) (c : ascii) : Z :=
  match rfind_nat c s with
  | Some i => Z.of_nat i
  | None => (-1)%Z
  end.

(** [c * n] for a one-character string [c] *)
Fixpoint repeat_char (c : ascii) (n : nat) : string :=
  match n with
  | O => EmptyString
  | S n' => String c (repeat_char c n')
  end.

(** [str(n)] for a non-negative int *)
Definition str_of_nat (n : nat) : string := pretty n.

(** [str(x)] for a value that is a [str] or [None] *)
Definition str_of_opt (x : option string) : string :=
  match x with
  | Some s => s
  | None => "None"
  end.

End Py.

(** ** Values, exceptions and the outside world *)

(** A raised exception: its class and [str(e)].  Only subclasses of
    [Exception] are modelled, which is what [except Exception] catches. *)
Record exn := Exn { exn_type : string; exn_msg : string }.

Inductive outcome (A : Type) : Type :=
  | Returns (a : A)
  | Raises (e : exn).
Arguments Returns {A} a.
Arguments Raises {A} e.

(** What [np.load] hands back and what [savemat] is given: the pipeline
    never looks inside an array. *)
Record ndarray := NdArray { dtype : string; shape : list nat; buffer : list Z }.

Inductive pyval : Type :=
  | PyNone
  | PyNdarray (a : ndarray)
  | PyObject (repr : string).

(** [isinstance(v, np.ndarray)] *)
Definition is_ndarray (v : pyval) : bool :=
  match v with
  | PyNdarray _ => true
  | _ => false
  end.

Inductive level := INFO | WARNING | ERROR.

(** What a run does that can be seen from outside: log records, popups, and
    the calls into numpy, the loader class and scipy. *)
Inductive event : Type :=
  | Log (lvl : level) (msg : string)
  | Popup (args : list string) (title : option string)
  | NpLoad (path : string)
  | LoadFile (path : string)
  | Savemat (path : string) (mdict : gmap string pyval).

(** What a path holds after a write: a container with its named entries as
    scipy laid them out, or the remains of a write that was interrupted. *)
Inductive artifact : Type :=
  | MatFile (mdict : gmap string pyval)
  | Truncated.

(** How [scipy.io.savemat] ends for a path and a dict: it opens the file for
    writing and then puts the variables; the open can fail (nothing is
    created), and the put can fail (the file was created already). *)
Inductive write_behaviour : Type :=
  | WriteOk
  | OpenFails (e : exn)
  | PutFails (e : exn).

(** The collaborators outside the repository.  Their answers do not change
    during a run. [load_file] stands for
    [load_data.NumpyFileLoader(path).load_file()], whose module is not among
    the sources: it may log, and return any value or raise. *)
Record world := World {
  os_listdir : option string → outcome (list string);
  os_isfile : string → bool;
  np_load : string → outcome pyval;
  load_file : string → list event * outcome pyval;
  writer : string → gmap string pyval → write_behaviour
}.

Record state := State {
  files : gmap string artifact;
  trace : list event
}.

(** ** The monad of a run: state and exceptions *)

Definition M (A : Type) : Type := state → outcome A * state.

Definition ret {A} (a : A) : M A := λ st, (Returns a, st).

Definition bind {A B} (c : M A) (k : A → M B) : M B :=
  λ st, match c st with
        | (Returns a, st') => k a st'
        | (Raises e, st') => (Raises e, st')
        end.

Global Instance M_ret : MRet M := @ret.
Global Instance M_bind : MBind M := λ A B k c, bind c k.

(** [raise e] *)
Definition raise {A} (e : exn) : M A := λ st, (Raises e, st).

(** A pure computation that can raise. *)
Definition lift {A} (o : outcome A) : M A := λ st, (o, st).

(** [try: c except Exception as e: h e] *)
Definition try_except {A} (c : M A) (h : exn → M A) : M A :=
  λ st, match c st with
        | (Returns a, st') => (Returns a, st')
        | (Raises e, st') => h e st'
        end.

Definition emit (ev : event) : M unit :=
  λ st, (Returns (), State (files st) (trace st ++ [ev])).

(** [logger.info(msg)], [logger.warning(msg)], [logger.error(msg)] *)
Definition log (lvl : level) (msg : string) : M unit := emit (Log lvl msg).

(** [sg.popup(args..., title=..., keep_on_top=True)] *)
Definition popup (args : list string) (title : option string) : M unit :=
  emit (Popup args title).

Definition put_file (path : string) (a : artifact) : M unit :=
  λ st, (Returns (), State (<[path := a]> (files st)) (trace st)).

(** ** [os.path] (posixpath) *)

Definition type_error_none : exn :=
  Exn "TypeError" "expected str, bytes or os.PathLike object, not NoneType".

(** [os.path.join(a, b)]; [os.fspath(None)] raises [TypeError]. *)
Definition join_str (a b : string) : string :=
  if Py.startswith b "/" then b
  else if bool_decide (a = "") || Py.endswith a "/" then a +:+ b
  else a +:+ "/" +:+ b.

Definition path_join (a : option string) (b : string) : outcome string :=
  match a with
  | None => Raises type_error_none
  | Some a => Returns (join_str a b)
  end.

(** The [while] of [genericpath._splitext]: is there a character other than
    the dot at an index in [filenameIndex, dotIndex)?  [n] bounds the number
    of rounds. *)
Fixpoint splitext_scan (n : nat) (p : string) (filenameIndex dotIndex : nat) : bool :=
  match n with
  | O => false
  | S n' =>
      if filenameIndex <? dotIndex then
        if bool_decide (String.substring filenameIndex 1 p ≠ ".") then true
        else splitext_scan n' p (S filenameIndex) dotIndex
      else false
  end.

(** [os.path.splitext(p)] *)
Definition splitext (p : string) : string * string :=
  let sepIndex := Py.rfind p "/"%char in
  let dotIndex := Py.rfind p "."%char in
  if bool_decide (dotIndex > sepIndex)%Z then
    let filenameIndex := Z.to_nat (sepIndex + 1) in
    if splitext_scan (Z.to_nat dotIndex) p filenameIndex (Z.to_nat dotIndex) then
      (Py.slice_to (Z.to_nat dotIndex) p, Py.slice_from (Z.to_nat dotIndex) p)
    else (p, "")
  else (p, "").

(** ** [scipy.io.savemat(file_name, mdict)] *)

(** [appendmat=True], as documented: ".mat" is appended to a name that does
    not end in it.  Releases of scipy that first open the name as it is
    given differ for such names only; every name the pipeline builds ends in
    ".mat" (see [savemat_target_join]), and for those the target is the name
    itself. *)
Definition savemat_target (file_name : string) : string :=
  if Py.endswith file_name ".mat" then file_name else file_name +:+ ".mat".

(** The dimensions scipy writes for an array of a given shape ([matdims]
    with [oned_as='row'], the default of [savemat]): a MAT-file array has two
    dimensions at least, so a 0-d array is written as 1 x 1 and a 1-D array
    of N elements as a row, 1 x N; an array without elements is written with
    all its dimensions 0. *)
Definition matdims (shape : list nat) : list nat :=
  match shape with
  | [] => [1; 1]
  | _ =>
      if existsb (Nat.eqb 0) shape then replicate (max (length shape) 2) 0
      else
        match shape with
        | [n] => [1; n]
        | _ => shape
        end
  end.

(** An entry as the container holds it: an array keeps its elements and
    gets the dimensions of [matdims]; the model does not look into what
    scipy makes of a value of another kind. *)
Definition stored_value (v : pyval) : pyval :=
  match v with
  | PyNdarray a => PyNdarray (NdArray (dtype a) (matdims (shape a)) (buffer a))
  | _ => v
  end.

(** The entries of the container written from [mdict]: [put_variables]
    skips a name that starts with an underscore. *)
Definition stored_entries (mdict : gmap string pyval) : gmap string pyval :=
  stored_value <$>
    filter (λ kv : string * pyval, Py.startswith kv.1 "_" = false) mdict.

Definition savemat (W : world) (file_name : string)
    (mdict : gmap string pyval) : M unit :=
  emit (Savemat file_name mdict) ;;
  match writer W (savemat_target file_name) mdict with
  | WriteOk =>
      put_file (savemat_target file_name) (MatFile (stored_entries mdict))
  | OpenFails e => raise e
  | PutFails e => put_file (savemat_target file_name) Truncated ;; raise e
  end.

(** ** utils.py *)

Module Utils.

Definition validate_file_type (filename target_type : string) : M bool :=
  if Py.endswith filename target_type then
    log INFO "Valid file type" ;;
    mret true
  else
    log ERROR "Invalid file type. Jumping to next file..." ;;
    mret false.

(** The comprehension
    [[f for f in names if os.path.isfile(os.path.join(path, f))]]. *)
Fixpoint only_files (W : world) (path : option string)
    (names : list string) : outcome (list string) :=
  match names with
  | [] => Returns []
  | f :: rest =>
      match path_join path f with
      | Raises e => Raises e
      | Returns p =>
          match only_files W path rest with
          | Raises e => Raises e
          | Returns l => Returns (if os_isfile W p then f :: l else l)
          end
      end
  end.

Definition filenames_in_dir (W : world) (path : option string) : M (list string) :=
  log INFO ("Reading files from: " +:+ Py.str_of_opt path) ;;
  try_except
    (names ← lift (os_listdir W path);
     filenames ← lift (only_files W path names);
     log INFO ("Found " +:+ Py.str_of_nat (length filenames) +:+ " file(s)") ;;
     mret filenames)
    (λ e,
      log ERROR ("Error reading directory: " +:+ exn_msg e
                 +:+ ". Returning empty list") ;;
      mret []).

Definition save_data_as_mat (W : world) (data : pyval) (filepath : string) : M unit :=
  if is_ndarray data then
    try_except
      (log INFO "Saving file as .mat file" ;;
       savemat W filepath {["data" := data]} ;;
       log INFO "Saved successfully")
      (λ e, log ERROR ("Error when saving as .mat file: " +:+ exn_msg e))
  else
    log WARNING
      "Data is not a numpy array. Cannot save as .mat file. Jumping to next file...".

End Utils.

(** ** processing.py *)

Module Processing.

Definition _gen_filepaths (npy_dir : option string) (npy_filename : string)
    (mat_dir : option string) : outcome (string * string) :=
  match path_join npy_dir npy_filename with
  | Raises e => Raises e
  | Returns npy_filepath =>
      let mat_filename := (splitext npy_filename).1 +:+ ".mat" in
      match path_join mat_dir mat_filename with
      | Raises e => Raises e
      | Returns mat_filepath => Returns (npy_filepath, mat_filepath)
      end
  end.

Definition _intro (valid_file_type : string) : M unit :=
  log INFO ("Valid file type is " +:+ valid_file_type) ;;
  log INFO "Iterating over files..." ;;
  log INFO (Py.repeat_char "-" 50).

Definition _outro (path_output : option string) : M unit :=
  log INFO "All files processed!" ;;
  log INFO ("Files saved to: " +:+ Py.str_of_opt path_output) ;;
  log INFO "Feel free to close the application".

(** What the loader logs and how it ends. *)
Definition loader_result (W : world) (npy_filepath : string) : M pyval :=
  λ st, ((load_file W npy_filepath).2,
         State (files st) (trace st ++ (load_file W npy_filepath).1)).

(** [NumpyFileLoader(npy_filepath).load_file()] *)
Definition call_load_file (W : world) (npy_filepath : string) : M pyval :=
  emit (LoadFile npy_filepath) ;;
  loader_result W npy_filepath.

(** The body of the [for] of [process], for the file at index [idx]. *)
Definition process_file (W : world) (valid_file_type : string)
    (path_input path_output : option string)
    (total idx : nat) (filename : string) : M unit :=
  log INFO ("Processing file " +:+ Py.str_of_nat (idx + 1) +:+ "/"
            +:+ Py.str_of_nat total +:+ ": " +:+ filename) ;;
  valid ← Utils.validate_file_type filename valid_file_type;
  (if valid : bool then
     '(npy_filepath, mat_filepath) ←
        lift (_gen_filepaths path_input filename path_output);
     npy_data ← call_load_file W npy_filepath;
     Utils.save_data_as_mat W npy_data mat_filepath
   else mret ()) ;;
  log INFO (Py.repeat_char "-" 50).

(** [for idx, filename in enumerate(filenames): ...] from index [idx] on *)
Fixpoint process_loop (W : world) (valid_file_type : string)
    (path_input path_output : option string)
    (total idx : nat) (filenames : list string) : M unit :=
  match filenames with
  | [] => mret ()
  | filename :: rest =>
      process_file W valid_file_type path_input path_output total idx filename ;;
      process_loop W valid_file_type path_input path_output total (S idx) rest
  end.

(** [process(values)].  The result is the Python value of the call: the
    body has no [return], so a call that completes gives [None]. *)
Definition process (W : world) (values : gmap string string) : M pyval :=
  let valid_file_type := ".npy" in
  let path_input := values !! "-NPY_DIR-" in
  let path_output := values !! "-MAT_DIR-" in
  filenames ← Utils.filenames_in_dir W path_input;
  _intro valid_file_type ;;
  process_loop W valid_file_type path_input path_output
    (length filenames) 0 filenames ;;
  _outro path_output ;;
  mret PyNone.

End Processing.

(** ** npy2mat.py, class [Npy2Mat] *)

Module Npy2Mat.

(** The argument of [check_file_type]: [Union[str, list]]. *)
Inductive names : Type :=
  | OneName (filename : string)
  | ManyNames (filenames : list string).

(** [for fn in filename: if not fn.endswith(target_type): return False] *)
Fixpoint check_each (filenames : list string) (target_type : string) : bool :=
  match filenames with
  | [] => true
  | fn :: rest =>
      if negb (Py.endswith fn target_type) then false
      else check_each rest target_type
  end.

Definition check_file_type (filename : names) (target_type : string) : bool :=
  match filename with
  | OneName s => if negb (Py.endswith s target_type) then false else true
  | ManyNames l => check_each l target_type
  end.

Definition load_npy_file (W : world) (npy_file : string) : M pyval :=
  try_except
    (emit (NpLoad npy_file) ;; lift (np_load W npy_file))
    (λ e, raise (Exn "ValueError" ("Failed to load npy file: " +:+ exn_msg e))).

Definition save_mat_file (W : world) (data : pyval) (mat_file : string) : M unit :=
  try_except
    (savemat W mat_file {["data" := data]})
    (λ e, raise (Exn "ValueError" ("Failed to save mat file: " +:+ exn_msg e))).

Definition filenames_in_dir (W : world) (path : option string) : M (list string) :=
  try_except
    (names ← lift (os_listdir W path);
     lift (Utils.only_files W path names))
    (λ e,
      popup ["Error reading directory"; exn_msg e] None ;;
      log ERROR ("Error reading directory: " +:+ exn_msg e) ;;
      mret []).

Definition convert_npy_to_mat (W : world) (npy_file mat_file : string) : M unit :=
  try_except
    (data ← load_npy_file W npy_file;
     save_mat_file W data mat_file ;;
     log INFO ("Converted " +:+ npy_file))
    (λ e,
      popup ["Error during converion"; exn_msg e] None ;;
      log ERROR ("Error during conversion: " +:+ exn_msg e)).

(** The body of the [for] of [convert_files]. *)
Definition convert_file (W : world) (npy_dir mat_dir : option string)
    (npy_file : string) : M unit :=
  mat_file ← lift (path_join mat_dir ((splitext npy_file).1 +:+ ".mat"));
  npy_path ← lift (path_join npy_dir npy_file);
  convert_npy_to_mat W npy_path mat_file.

Fixpoint convert_loop (W : world) (filenames : list string)
    (npy_dir mat_dir : option string) : M unit :=
  match filenames with
  | [] => mret ()
  | npy_file :: rest =>
      convert_file W npy_dir mat_dir npy_file ;;
      convert_loop W rest npy_dir mat_dir
  end.

Definition convert_files (W : world) (filenames : list string)
    (npy_dir mat_dir : option string) : M unit :=
  convert_loop W filenames npy_dir mat_dir ;;
  popup ["Conversion successful!"] None.

Definition get_directories (values : gmap string string)
    : option string * option string :=
  (values !! "-NPY_DIR-", values !! "-MAT_DIR-").

Definition validate_file_types (filenames : list string)
    (target_type : string) : M bool :=
  if check_file_type (ManyNames filenames) target_type then
    log INFO ("Found " +:+ Py.str_of_nat (length filenames)
              +:+ " files to convert") ;;
    mret true
  else mret false.

Definition show_invalid_file_type_error : M unit :=
  popup ["Invalid file type: .npy files required"] (Some "Error") ;;
  log WARNING "Invalid file type: .npy files required".

Definition handle_conversions (W : world) (values : gmap string string) : M unit :=
  let '(npy_dir, mat_dir) := get_directories values in
  npy_filenames ← filenames_in_dir W npy_dir;
  ok ← validate_file_types npy_filenames ".npy";
  if ok : bool then convert_files W npy_filenames npy_dir mat_dir
  else show_invalid_file_type_error.

End Npy2Mat.

(** ** Derived notions used in the statements *)

(** What [filenames_in_dir] answers for a directory path. *)
Definition listed (W : world) (path : string) : list string :=
  match os_listdir W (Some path) with
  | Returns names => List.filter (λ f, os_isfile W (join_str path f)) names
  | Raises _ => []
  end.

(** The log records of one round of the [for] of [process]. *)
Definition processing_record (total idx : nat) (filename : string) : event :=
  Log INFO ("Processing file " +:+ Py.str_of_nat (idx + 1) +:+ "/"
            +:+ Py.str_of_nat total +:+ ": " +:+ filename).

Definition dashes_record : event := Log INFO (Py.repeat_char "-" 50).

Definition invalid_type_record : event :=
  Log ERROR "Invalid file type. Jumping to next file...".

Definition not_an_array_record : event :=
  Log WARNING
    "Data is not a numpy array. Cannot save as .mat file. Jumping to next file...".

(** The one entry [savemat] is given. *)
Definition data_entry (data : pyval) : gmap string pyval := {["data" := data]}.

(** The state [savemat] leaves, by the way the write ends. *)
Definition after_write (b : write_behaviour) (target : string)
    (mdict : gmap string pyval) (fs : gmap string artifact)
    : gmap string artifact :=
  match b with
  | WriteOk => <[target := MatFile (stored_entries mdict)]> fs
  | OpenFails _ => fs
  | PutFails _ => <[target := Truncated]> fs
  end.

Definition write_result (b : write_behaviour) : outcome unit :=
  match b with
  | WriteOk => Returns ()
  | OpenFails e | PutFails e => Raises e
  end.

Definition valid_type_record : event := Log INFO "Valid file type".

(** The loader of processing.py reports a failure through the value it
    returns: it does not raise. *)
Definition loader_returns (W : world) : Prop :=
  ∀ path, ∃ v, (load_file W path).2 = Returns v.

(** The record that closes the conversion of one file in npy2mat.py. *)
Definition conversion_record (ev : event) : bool :=
  match ev with
  | Log INFO msg => Py.startswith msg "Converted "
  | Log ERROR msg => Py.startswith msg "Error during conversion: "
  | _ => false
  end.

(** The events of a conversion that fails with [e] in npy2mat.py. *)
Definition conversion_error_events (e : exn) : list event :=
  [Popup ["Error during converion"; exn_msg e] None;
   Log ERROR ("Error during conversion: " +:+ exn_msg e)].

Definition load_error (e : exn) : exn :=
  Exn "ValueError" ("Failed to load npy file: " +:+ exn_msg e).

Definition save_error (e : exn) : exn :=
  Exn "ValueError" ("Failed to save mat file: " +:+ exn_msg e).

(** The closing records of [process]. *)
Definition outro_records (path_output : option string) : list event :=
  [Log INFO "All files processed!";
   Log INFO ("Files saved to: " +:+ Py.str_of_opt path_output);
   Log INFO "Feel free to close the application"].

(** ** The path resolver, in the words of the specification

    [resolve] strips the extension of the filename, appends the extension of
    the destination format and joins the result with the destination
    directory.  The extension of a name is its part from the last dot on,
    provided the last component of the name has a character other than the
    dot before it; a name without such a dot has no extension. *)

Fixpoint has_char (c : ascii) (s : string) : bool :=
  match s with
  | EmptyString => false
  | String a s' => bool_decide (a = c) || has_char c s'
  end.

(** Is there a character other than the dot? *)
Fixpoint has_nondot (s : string) : bool :=
  match s with
  | EmptyString => false
  | String a s' => negb (bool_decide (a = "."%char)) || has_nondot s'
  end.

(** The name without its extension, read from left to right; [seen] tells
    whether the component at hand has shown a character other than the
    dot. *)
Fixpoint strip_from (seen : bool) (s : string) : string :=
  match s with
  | EmptyString => EmptyString
  | String c s' =>
      if bool_decide (c = "/"%char) then String c (strip_from false s')
      else if bool_decide (c = "."%char) then
        if seen && negb (has_char "." s') && negb (has_char "/" s')
        then EmptyString
        else String c (strip_from seen s')
      else String c (strip_from true s')
  end.

(** The flag of [strip_from] once it has read [a]. *)
Fixpoint seen_after (seen : bool) (a : string) : bool :=
  match a with
  | EmptyString => seen
  | String c a' =>
      seen_after
        (if bool_decide (c = "/"%char) then false
         else if bool_decide (c = "."%char) then seen else true) a'
  end.

Definition strip_extension (filename : string) : string :=
  strip_from false filename.

Definition resolve (sourceDir filename destDir : string) : string :=
  join_str destDir (strip_extension filename +:+ ".mat").

(** ** A sample batch

    The directory "in" holds a.npy (an array), b.txt (another type), c.npy
    (corrupt bytes) and the subdirectory sub; no other directory can be
    listed.  Writing below "ro/" is refused, writing below "full/" breaks off
    after the file was created, and writing elsewhere succeeds. *)

Module Sample.

Definition arr : ndarray := NdArray "float64" [2] [1; 2]%Z.

Definition no_such_directory : exn :=
  Exn "FileNotFoundError" "[Errno 2] No such file or directory".

Definition permission_denied : exn :=
  Exn "PermissionError" "[Errno 13] Permission denied".

Definition no_space_left : exn :=
  Exn "OSError" "[Errno 28] No space left on device".

Definition bad_magic : exn :=
  Exn "ValueError" "Cannot load file containing pickled data".

Definition W : world := {|
  os_listdir := λ path,
    if bool_decide (path = Some "in")
    then Returns ["a.npy"; "b.txt"; "c.npy"; "sub"]
    else Raises no_such_directory;
  os_isfile := λ p, negb (bool_decide (p = "in/sub"));
  np_load := λ p,
    if bool_decide (p = "in/a.npy") then Returns (PyNdarray arr)
    else Raises bad_magic;
  load_file := λ p,
    if bool_decide (p = "in/a.npy") then ([], Returns (PyNdarray arr))
    else ([Log ERROR "Could not load the file"], Returns PyNone);
  writer := λ p mdict,
    if Py.startswith p "ro/" then OpenFails permission_denied
    else if Py.startswith p "full/" then PutFails no_space_left
    else WriteOk
|}.

Definition st0 : state := State ∅ [].

Definition values (npy_dir mat_dir : string) : gmap string string :=
  {["-NPY_DIR-" := npy_dir; "-MAT_DIR-" := mat_dir]}.

End Sample.

(** ** Notions used for the properties beyond the claims *)

(** A call out of the repository: into numpy, the loader class or scipy. *)
Definition calls_outside (ev : event) : bool :=
  match ev with
  | NpLoad _ | LoadFile _ | Savemat _ _ => true
  | _ => false
  end.

(** A run that made no such call. *)
Definition quiet (evs : list event) : Prop :=
  Forall (λ ev, calls_outside ev = false) evs.

(** The destination paths of a batch: one for every listed name that ends
    in ".npy". *)
Definition destination_of (src dst : option string) (names : list string)
    (p : string) : Prop :=
  ∃ s d f, src = Some s ∧ dst = Some d ∧ f ∈ names
           ∧ Py.endswith f ".npy" = true
           ∧ p = join_str d ((splitext f).1 +:+ ".mat").

(** The destination paths of [convert_files]: one for every name. *)
Definition converted_to (dst : option string) (names : list string)
    (p : string) : Prop :=
  ∃ d f, dst = Some d ∧ f ∈ names
         ∧ p = join_str d ((splitext f).1 +:+ ".mat").

(** The loader makes none of the calls that the trace records on its own. *)
Definition loader_quiet (W : world) : Prop :=
  ∀ path, quiet (load_file W path).1.

(** The calls out of the repository that a round of [process] makes for a
    name: none for a name of another type; the loader for a name that ends
    in ".npy", followed by [savemat] when the loader returned an array. *)
Definition process_calls (W : world) (src dst : string) (f : string)
    : list event :=
  if Py.endswith f ".npy" then
    LoadFile (join_str src f) ::
    match (load_file W (join_str src f)).2 with
    | Returns (PyNdarray a) =>
        [Savemat (join_str dst ((splitext f).1 +:+ ".mat"))
           (data_entry (PyNdarray a))]
    | _ => []
    end
  else [].

(** The calls that [convert_npy_to_mat] makes for a name: [np.load], followed
    by [savemat] of whatever was loaded. *)
Definition convert_calls (W : world) (src dst : string) (f : string)
    : list event :=
  NpLoad (join_str src f) ::
  match np_load W (join_str src f) with
  | Returns v =>
      [Savemat (join_str dst ((splitext f).1 +:+ ".mat")) (data_entry v)]
  | Raises _ => []
  end.

(** ** The event loops: main.py and [run] of npy2mat.py

    [window.read()] hands back the event, which is [None] ([sg.WIN_CLOSED])
    or the text of the button, and the values of the inputs.  The reads of a
    session are a script; the loop ends by [break], after which
    [window.close()] is called, or is still waiting in [window.read()] when
    the script is used up. *)

Definition window_read : Type := option string * gmap string string.

Inductive loop_end : Type :=
  | WindowClosed
  | Waiting.

(** [event in (sg.WIN_CLOSED, "Cancel")] *)
Definition is_close (event : option string) : bool :=
  bool_decide (event = None) || bool_decide (event = Some "Cancel").

(** [sg.popup("Contact Information", "Creator: ...\nEmail: ...",
    keep_on_top=True)] *)
Definition contact_info : M unit :=
  popup ["Contact Information";
         "Creator: Erik Lindvall" +:+ String "010"%char
           "Email: erik.lindvall@ri.se"] None.

(** The [while True] of both [run]s; they differ in what "Convert" calls. *)
Fixpoint window_loop (convert : gmap string string → M unit)
    (reads : list window_read) : M loop_end :=
  match reads with
  | [] => mret Waiting
  | (event, values) :: rest =>
      if is_close event then
        log INFO "Application closed by user" ;;
        mret WindowClosed
      else
        (if bool_decide (event = Some "Convert") then convert values
         else mret ()) ;;
        (if bool_decide (event = Some "Contact Info") then contact_info
         else mret ()) ;;
        window_loop convert rest
  end.

(** main.py *)
Module Main.

Definition run (W : world) (reads : list window_read) : M loop_end :=
  log INFO "Starting application..." ;;
  window_loop (λ values, Processing.process W values ;; mret ()) reads.

End Main.

(** npy2mat.py, [Npy2Mat.run] *)
Module Npy2MatApp.

Definition run (W : world) (reads : list window_read) : M loop_end :=
  log INFO "Starting application..." ;;
  window_loop (Npy2Mat.handle_conversions W) reads.

End Npy2MatApp.

(** A read that neither closes the window nor converts. *)
Definition idle (r : window_read) : bool :=
  negb (is_close r.1) && negb (bool_decide (r.1 = Some "Convert")).

(** What an idle read leaves in the trace: the contact popup, for the
    button "Contact Info". *)
Definition idle_events (r : window_read) : list event :=
  if bool_decide (r.1 = Some "Contact Info") then
    [Popup ["Contact Information";
            "Creator: Erik Lindvall" +:+ String "010"%char
              "Email: erik.lindvall@ri.se"] None]
  else [].

(** ** The loader, from the specification *)

(** Modelled from the spec: [load_data.NumpyFileLoader(path).load_file()],
    whose module is not among the sources.  Section 4.4 of the
    specification: decode(path) gives the array of the file and fails with
    DecodeError when the file is missing, unreadable or not a well-formed
    array file, without touching any shared state.  What numpy makes of the
    file is the answer of [np_load]. *)
Definition decode_error (e : exn) : exn := Exn "DecodeError" (exn_msg e).

Definition spec_load_file (W : world) (path : string)
    : list event * outcome pyval :=
  match np_load W path with
  | Returns v => ([], Returns v)
  | Raises e => ([], Raises (decode_error e))
  end.

(** The world [W] with the loader of the specification. *)
Definition with_spec_loader (W : world) : world := {|
  os_listdir := os_listdir W;
  os_isfile := os_isfile W;
  np_load := np_load W;
  load_file := spec_load_file W;
  writer := writer W
|}.

(** A batch whose first file is corrupt: the directory "in" holds c.npy
    (corrupt bytes) and a.npy (an array), listed in this order; the files
    and the writer are those of the sample batch, the loader is the one of
    the specification. *)
Module Corrupt.

Definition W : world := with_spec_loader {|
  os_listdir := λ path,
    if bool_decide (path = Some "in") then Returns ["c.npy"; "a.npy"]
    else Raises Sample.no_such_directory;
  os_isfile := λ _, true;
  np_load := np_load Sample.W;
  load_file := load_file Sample.W;
  writer := writer Sample.W
|}.

End Corrupt.

(** * Properties *)

(** Unfolding of the monad's operations. *)
Ltac run :=
  unfold mbind, M_bind, mret, M_ret, bind, ret, try_except, log, popup, emit,
    lift, raise, put_file; simpl.

Arguments Py.str_of_nat : simpl never.
Arguments Py.endswith : simpl never.
Arguments Py.repeat_char : simpl never.
Arguments splitext : simpl never.
Arguments join_str : simpl never.
Arguments savemat_target : simpl never.

(** ** Strings *)

Lemma substring_all (s : string) : String.substring 0 (String.length s) s = s.
Proof. induction s as [|c s IH]; simpl; [done | by rewrite IH]. Qed.

Lemma substring_skip (p t : string) (k : nat) :
  String.substring (String.length p) k (p +:+ t) = String.substring 0 k t.
Proof.
  induction p as [|c p IH]; simpl; [done|].
  exact IH.
Qed.

Lemma substring_split (s : string) (i k : nat) :
  i + k = String.length s →
  s = String.substring 0 i s +:+ String.substring i k s.
Proof.
  revert i k. induction s as [|c s IH]; intros i k Hlen; simpl in *.
  - destruct i, k; simpl in *; try done.
  - destruct i as [|i]; simpl.
    + destruct k as [|k]; simpl in *; [lia|].
      f_equal. assert (k = String.length s) as -> by lia.
      by rewrite substring_all.
    + change (String c s = String c (String.substring 0 i s +:+ String.substring i k s)).
      f_equal. apply IH. lia.
Qed.

Lemma length_append (p t : string) :
  String.length (p +:+ t) = String.length p + String.length t.
Proof. induction p as [|c p IH]; simpl; [done | by rewrite IH]. Qed.

Lemma endswith_iff (s t : string) :
  Py.endswith s t = true ↔ ∃ p, s = p +:+ t.
Proof.
  unfold Py.endswith, Py.len. split.
  - destruct (Nat.ltb_spec (String.length s) (String.length t)) as [|Hle]; [done|].
    intros Heq%bool_decide_eq_true.
    exists (String.substring 0 (String.length s - String.length t) s).
    etrans; [apply (substring_split s (String.length s - String.length t)
                      (String.length t)); lia|].
    by rewrite Heq.
  - intros [p ->]. rewrite length_append.
    destruct (Nat.ltb_spec (String.length p + String.length t) (String.length t));
      [lia|].
    apply bool_decide_eq_true.
    replace (String.length p + String.length t - String.length t)
      with (String.length p) by lia.
    by rewrite substring_skip, substring_all.
Qed.

Lemma append_inj_same_length (p q t u : string) :
  String.length t = String.length u → p +:+ t = q +:+ u → t = u.
Proof.
  intros Hlen Heq.
  assert (String.length p = String.length q) as Hpq.
  { apply (f_equal String.length) in Heq. rewrite !length_append in Heq. lia. }
  revert q Hpq Heq. induction p as [|c p IH]; intros [|d q] Hpq Heq;
    simpl in *; try done.
  injection Heq as _ Heq. apply (IH q); [lia | done].
Qed.

Lemma append_assoc (a b c : string) : (a +:+ b) +:+ c = a +:+ b +:+ c.
Proof.
  induction a as [|x a IH]; [done|].
  change (String x ((a +:+ b) +:+ c) = String x (a +:+ b +:+ c)).
  by rewrite IH.
Qed.

Lemma append_empty_r (a : string) : a +:+ "" = a.
Proof.
  induction a as [|x a IH]; [done|].
  change (String x (a +:+ "") = String x a). by rewrite IH.
Qed.

(** [os.path.join(a, b)] ends with [b]. *)
Lemma join_str_suffix (a b : string) : ∃ p, join_str a b = p +:+ b.
Proof.
  unfold join_str. destruct (Py.startswith b "/"); [by exists ""|].
  destruct (bool_decide (a = "") || Py.endswith a "/"); [by exists a|].
  exists (a +:+ "/"). by rewrite append_assoc.
Qed.

(** A path built by joining a directory with a name that ends in ".mat" is
    the path [savemat] writes to. *)
Lemma savemat_target_join (mat_dir stem : string) :
  savemat_target (join_str mat_dir (stem +:+ ".mat"))
  = join_str mat_dir (stem +:+ ".mat").
Proof.
  unfold savemat_target.
  destruct (join_str_suffix mat_dir (stem +:+ ".mat")) as [p Hp].
  assert (Py.endswith (join_str mat_dir (stem +:+ ".mat")) ".mat" = true) as ->;
    [|done].
  apply endswith_iff. exists (p +:+ stem). by rewrite Hp, append_assoc.
Qed.

Lemma substring_prefix (p s : string) :
  String.substring 0 (String.length p) (p +:+ s) = p.
Proof.
  induction p as [|c p IH]; simpl; [by destruct s|].
  f_equal. apply IH.
Qed.

Lemma startswith_append (p s : string) : Py.startswith (p +:+ s) p = true.
Proof.
  unfold Py.startswith, Py.len. rewrite length_append.
  destruct (Nat.ltb_spec (String.length p + String.length s) (String.length p));
    [lia|].
  apply bool_decide_eq_true. apply substring_prefix.
Qed.

(** ** Type validation *)

Lemma validate_file_type_result (filename target_type : string) (st : state) :
  (Utils.validate_file_type filename target_type st).1
  = Returns (Py.endswith filename target_type).
Proof.
  unfold Utils.validate_file_type.
  by destruct (Py.endswith filename target_type).
Qed.

Lemma check_file_type_one (filename target_type : string) :
  Npy2Mat.check_file_type (Npy2Mat.OneName filename) target_type
  = Py.endswith filename target_type.
Proof. simpl. by destruct (Py.endswith filename target_type). Qed.

Lemma endswith_other_suffix (stem ext ext' : string) :
  String.length ext' = String.length ext → ext' ≠ ext →
  Py.endswith (stem +:+ ext') ext = false.
Proof.
  intros Hlen Hne. apply not_true_is_false. intros [p Hp]%endswith_iff.
  apply Hne. by apply (append_inj_same_length stem p).
Qed.

(** C9.  [validate_file_type] (and [check_file_type] on one name) answers
    true exactly when the filename is some prefix followed by the expected
    extension, character for character; a name whose last characters are as
    many as the extension's but are not the extension (its upper-case form,
    say) is rejected. *)
Theorem validate_file_type_suffix (filename target_type : string) (st : state) :
  ((Utils.validate_file_type filename target_type st).1 = Returns true
   ↔ ∃ stem, filename = stem +:+ target_type)
  ∧ ((Utils.validate_file_type filename target_type st).1 = Returns false
     ↔ ¬ ∃ stem, filename = stem +:+ target_type)
  ∧ (Npy2Mat.check_file_type (Npy2Mat.OneName filename) target_type = true
     ↔ ∃ stem, filename = stem +:+ target_type)
  ∧ (∀ stem ext' : string,
       String.length ext' = String.length target_type → ext' ≠ target_type →
       (Utils.validate_file_type (stem +:+ ext') target_type st).1 = Returns false
       ∧ Npy2Mat.check_file_type (Npy2Mat.OneName (stem +:+ ext')) target_type
         = false).
Proof.
  rewrite validate_file_type_result, check_file_type_one.
  rewrite <- endswith_iff. split; [|split; [|split]].
  - split; [by intros [= ->] | by intros ->].
  - split.
    + intros [= Hf] Ht. congruence.
    + intros Hn. f_equal. by apply not_true_is_false.
  - done.
  - intros stem ext' Hlen Hne.
    rewrite validate_file_type_result, check_file_type_one.
    by rewrite endswith_other_suffix.
Qed.

Lemma validate_file_type_suffix_witness :
  (Utils.validate_file_type "scan.NPY" ".npy" (State ∅ [])).1 = Returns false
  ∧ Npy2Mat.check_file_type (Npy2Mat.OneName "scan.NPY") ".npy" = false.
Proof.
  refine (proj2 (proj2 (proj2
    (validate_file_type_suffix "scan.npy" ".npy" (State ∅ []))))
    "scan" ".NPY" _ _); [reflexivity | discriminate].
Defined.

(** C10.  On a list of names [check_file_type] is the conjunction of its
    answers on the members, one by one; on the empty list it is true. *)
Theorem check_file_type_all (filenames : list string) (target_type : string) :
  Npy2Mat.check_file_type (Npy2Mat.ManyNames filenames) target_type
  = forallb (λ fn, Npy2Mat.check_file_type (Npy2Mat.OneName fn) target_type)
      filenames
  ∧ Npy2Mat.check_file_type (Npy2Mat.ManyNames []) target_type = true.
Proof.
  split; [|done]. simpl.
  induction filenames as [|fn rest IH]; simpl; [done|].
  rewrite IH. by destruct (Py.endswith fn target_type).
Qed.

(** ** Listing a directory *)

Lemma only_files_filter (W : world) (path : string) (names : list string) :
  Utils.only_files W (Some path) names
  = Returns (List.filter (λ f, os_isfile W (join_str path f)) names).
Proof.
  induction names as [|f rest IH]; simpl; [done|].
  by rewrite IH.
Qed.

Lemma listed_are_files (W : world) (path : string) :
  Forall (λ f, os_isfile W (join_str path f) = true) (listed W path).
Proof.
  unfold listed. destruct (os_listdir W (Some path)) as [names|e]; [|constructor].
  apply List.Forall_forall. by intros f [_ Hf]%List.filter_In.
Qed.

Lemma utils_filenames_in_dir_returns (W : world) (path : string) (st : state) :
  ∃ evs, Utils.filenames_in_dir W (Some path) st
         = (Returns (listed W path), State (files st) (trace st ++ evs)).
Proof.
  unfold Utils.filenames_in_dir, listed. run.
  destruct (os_listdir W (Some path)) as [names|e]; simpl.
  - rewrite only_files_filter. simpl. rewrite <- !app_assoc. by eexists.
  - rewrite <- !app_assoc. by eexists.
Qed.

Lemma npy2mat_filenames_in_dir_returns (W : world) (path : string) (st : state) :
  ∃ evs, Npy2Mat.filenames_in_dir W (Some path) st
         = (Returns (listed W path), State (files st) (trace st ++ evs)).
Proof.
  unfold Npy2Mat.filenames_in_dir, listed. run.
  destruct (os_listdir W (Some path)) as [names|e]; simpl.
  - rewrite only_files_filter. exists []. rewrite app_nil_r. by destruct st.
  - rewrite <- !app_assoc. by eexists.
Qed.

(** C4.  For a directory path both [filenames_in_dir] return, never raise,
    and leave the files alone; every name returned is a regular file of the
    directory ([os.path.isfile] holds of it); when [os.listdir] raises the
    list is empty, and [process] then completes with [None], having called
    neither the loader nor the writer. *)
Theorem filenames_in_dir_only_files (W : world) (path : string) (st : state) :
  (Utils.filenames_in_dir W (Some path) st).1 = Returns (listed W path)
  ∧ files (Utils.filenames_in_dir W (Some path) st).2 = files st
  ∧ (Npy2Mat.filenames_in_dir W (Some path) st).1 = Returns (listed W path)
  ∧ files (Npy2Mat.filenames_in_dir W (Some path) st).2 = files st
  ∧ Forall (λ f, os_isfile W (join_str path f) = true
                 ∧ ∃ names, os_listdir W (Some path) = Returns names ∧ f ∈ names)
      (listed W path)
  ∧ (∀ e, os_listdir W (Some path) = Raises e →
       listed W path = []
       ∧ ∀ values : gmap string string,
           values !! "-NPY_DIR-" = Some path →
           Processing.process W values st
           = (Returns PyNone,
              State (files st)
                (trace st ++
                 [Log INFO ("Reading files from: " +:+ path);
                  Log ERROR ("Error reading directory: " +:+ exn_msg e
                             +:+ ". Returning empty list");
                  Log INFO "Valid file type is .npy";
                  Log INFO "Iterating over files...";
                  Log INFO (Py.repeat_char "-" 50);
                  Log INFO "All files processed!";
                  Log INFO ("Files saved to: "
                            +:+ Py.str_of_opt (values !! "-MAT_DIR-"));
                  Log INFO "Feel free to close the application"]))).
Proof.
  destruct (utils_filenames_in_dir_returns W path st) as [evs1 H1].
  destruct (npy2mat_filenames_in_dir_returns W path st) as [evs2 H2].
  rewrite H1, H2. simpl. repeat (split; [done|]). split.
  - unfold listed. destruct (os_listdir W (Some path)) as [names|e] eqn:Hl;
      [|constructor].
    apply List.Forall_forall. intros f [Hin Hf]%List.filter_In.
    split; [done|]. exists names. split; [done|]. by apply list_elem_of_In.
  - intros e He. split; [unfold listed; by rewrite He|].
    intros values Hv. unfold Processing.process, Utils.filenames_in_dir.
    rewrite Hv. run. rewrite He. simpl.
    by rewrite <- !app_assoc.
Qed.

Lemma filenames_in_dir_only_files_witness :
  listed Sample.W "nowhere" = []
  ∧ (Processing.process Sample.W (Sample.values "nowhere" "out") Sample.st0).1
    = Returns PyNone.
Proof.
  destruct (proj2 (proj2 (proj2 (proj2 (proj2
    (filenames_in_dir_only_files Sample.W "nowhere" Sample.st0)))))
    Sample.no_such_directory eq_refl) as [Hl Hp].
  split; [exact Hl|].
  by rewrite (Hp (Sample.values "nowhere" "out") eq_refl).
Defined.

(** ** Encoding *)

Lemma savemat_run (W : world) (file_name : string) (mdict : gmap string pyval)
    (st : state) :
  savemat W file_name mdict st
  = (write_result (writer W (savemat_target file_name) mdict),
     State (after_write (writer W (savemat_target file_name) mdict)
              (savemat_target file_name) mdict (files st))
       (trace st ++ [Savemat file_name mdict])).
Proof.
  unfold savemat. run.
  by destruct (writer W (savemat_target file_name) mdict).
Qed.

Lemma save_mat_file_run (W : world) (data : pyval) (mat_file : string)
    (st : state) :
  Npy2Mat.save_mat_file W data mat_file st
  = (match writer W (savemat_target mat_file) (data_entry data) with
     | WriteOk => Returns ()
     | OpenFails e | PutFails e =>
         Raises (Exn "ValueError" ("Failed to save mat file: " +:+ exn_msg e))
     end,
     State (after_write (writer W (savemat_target mat_file) (data_entry data))
              (savemat_target mat_file) (data_entry data) (files st))
       (trace st ++ [Savemat mat_file (data_entry data)])).
Proof.
  unfold Npy2Mat.save_mat_file, try_except. fold (data_entry data).
  rewrite savemat_run.
  by destruct (writer W (savemat_target mat_file) (data_entry data)).
Qed.

Lemma save_data_as_mat_array (W : world) (a : ndarray) (filepath : string)
    (st : state) :
  Utils.save_data_as_mat W (PyNdarray a) filepath st
  = (Returns (),
     State (after_write
              (writer W (savemat_target filepath) (data_entry (PyNdarray a)))
              (savemat_target filepath) (data_entry (PyNdarray a)) (files st))
       (trace st ++
        [Log INFO "Saving file as .mat file";
         Savemat filepath (data_entry (PyNdarray a));
         match writer W (savemat_target filepath) (data_entry (PyNdarray a)) with
         | WriteOk => Log INFO "Saved successfully"
         | OpenFails e | PutFails e =>
             Log ERROR ("Error when saving as .mat file: " +:+ exn_msg e)
         end])).
Proof.
  unfold Utils.save_data_as_mat. simpl. fold (data_entry (PyNdarray a)).
  unfold try_except, mbind, M_bind, bind.
  unfold log at 1, emit at 1. rewrite savemat_run. simpl.
  destruct (writer W (savemat_target filepath) (data_entry (PyNdarray a)));
    run; by rewrite <- !app_assoc.
Qed.

Lemma save_data_as_mat_other (W : world) (data : pyval) (filepath : string)
    (st : state) :
  is_ndarray data = false →
  Utils.save_data_as_mat W data filepath st
  = (Returns (), State (files st) (trace st ++ [not_an_array_record])).
Proof. intros Hd. unfold Utils.save_data_as_mat. by rewrite Hd. Qed.

Lemma save_data_as_mat_returns (W : world) (data : pyval) (filepath : string)
    (st : state) :
  (Utils.save_data_as_mat W data filepath st).1 = Returns ().
Proof.
  destruct data as [|a|r].
  - by rewrite save_data_as_mat_other.
  - by rewrite save_data_as_mat_array.
  - by rewrite save_data_as_mat_other.
Qed.

(** C5, as the code has it.  [save_mat_file] of npy2mat.py raises
    [ValueError] exactly when [savemat] raises (the file cannot be opened,
    or the variables cannot be put), and returns otherwise. [save_data_as_mat]
    of utils.py always returns: a failure of [savemat] is caught and logged as
    an error, and a payload that is not an array is logged as a warning and
    never given to [savemat]. *)
Theorem encode_failure_outcomes (W : world) (data : pyval) (filepath : string)
    (st : state) :
  (Npy2Mat.save_mat_file W data filepath st).1
  = match writer W (savemat_target filepath) (data_entry data) with
    | WriteOk => Returns ()
    | OpenFails e | PutFails e =>
        Raises (Exn "ValueError" ("Failed to save mat file: " +:+ exn_msg e))
    end
  ∧ (Utils.save_data_as_mat W data filepath st).1 = Returns ()
  ∧ trace (Utils.save_data_as_mat W data filepath st).2
    = trace st ++
      match data with
      | PyNdarray a =>
          [Log INFO "Saving file as .mat file";
           Savemat filepath (data_entry data);
           match writer W (savemat_target filepath) (data_entry data) with
           | WriteOk => Log INFO "Saved successfully"
           | OpenFails e | PutFails e =>
               Log ERROR ("Error when saving as .mat file: " +:+ exn_msg e)
           end]
      | _ => [not_an_array_record]
      end.
Proof.
  rewrite save_mat_file_run, save_data_as_mat_returns. simpl.
  repeat split.
  destruct data as [|a|r].
  - by rewrite save_data_as_mat_other.
  - by rewrite save_data_as_mat_array.
  - by rewrite save_data_as_mat_other.
Qed.

(** C5 as stated fails on utils.py: below "ro/" the writer is refused, and
    [save_data_as_mat] returns as it does after a write that went well. *)
Lemma save_data_as_mat_hides_failure :
  writer Sample.W (savemat_target "ro/a.mat") (data_entry (PyNdarray Sample.arr))
  = OpenFails Sample.permission_denied
  ∧ (Utils.save_data_as_mat Sample.W (PyNdarray Sample.arr) "ro/a.mat"
       Sample.st0).1 = Returns ()
  ∧ (Utils.save_data_as_mat Sample.W (PyNdarray Sample.arr) "out/a.mat"
       Sample.st0).1 = Returns ().
Proof. repeat split; vm_compute; reflexivity. Qed.





(** ** The loop of [process] *)

Section ProcessLoop.

Variable W : world.
Variables path_input path_output : option string.
Variable total : nat.

Local Abbreviation loop := (Processing.process_loop W ".npy" path_input path_output total).
Local Abbreviation round := (Processing.process_file W ".npy" path_input path_output total).

Lemma process_loop_app (idx : nat) (pre post : list string) (st : state) :
  loop idx (pre ++ post) st
  = match loop idx pre st with
    | (Returns _, st1) => loop (idx + length pre) post st1
    | (Raises e, st1) => (Raises e, st1)
    end.
Proof.
  revert idx st. induction pre as [|f pre IH]; intros idx st; simpl.
  - by rewrite Nat.add_0_r.
  - unfold mbind, M_bind, bind.
    destruct (round idx f st) as [[[]|e] st1]; [|done].
    rewrite IH. by replace (S idx + length pre) with (idx + S (length pre)) by lia.
Qed.

Lemma process_loop_cons (idx : nat) (f : string) (rest : list string)
    (st : state) :
  loop idx (f :: rest) st
  = match round idx f st with
    | (Returns _, st1) => loop (S idx) rest st1
    | (Raises e, st1) => (Raises e, st1)
    end.
Proof. done. Qed.

Lemma process_file_invalid (idx : nat) (f : string) (st : state) :
  Py.endswith f ".npy" = false →
  round idx f st
  = (Returns (),
     State (files st)
       (trace st ++ [processing_record total idx f; invalid_type_record;
                     dashes_record])).
Proof.
  intros Hf. unfold Processing.process_file, Utils.validate_file_type.
  rewrite Hf. run. by rewrite <- !app_assoc.
Qed.

End ProcessLoop.

Section ProcessRound.

Variable W : world.
Variables npy_dir mat_dir : string.
Variable total : nat.

Local Abbreviation round :=
  (Processing.process_file W ".npy" (Some npy_dir) (Some mat_dir) total).

(** A round on a name that ends in ".npy": the loader is called, and what it
    returns goes to [save_data_as_mat]. *)
Lemma process_file_valid (idx : nat) (f : string) (st : state) :
  Py.endswith f ".npy" = true →
  round idx f st
  = let st1 :=
      State (files st)
        (trace st ++ [processing_record total idx f; valid_type_record;
                      LoadFile (join_str npy_dir f)]
                  ++ (load_file W (join_str npy_dir f)).1) in
    match (load_file W (join_str npy_dir f)).2 with
    | Raises e => (Raises e, st1)
    | Returns v =>
        let st2 :=
          (Utils.save_data_as_mat W v
             (join_str mat_dir ((splitext f).1 +:+ ".mat")) st1).2 in
        (Returns (), State (files st2) (trace st2 ++ [dashes_record]))
    end.
Proof.
  intros Hf.
  unfold Processing.process_file, Utils.validate_file_type,
    Processing._gen_filepaths, Processing.call_load_file,
    Processing.loader_result.
  rewrite Hf. run. rewrite <- !app_assoc. simpl.
  destruct (load_file W (join_str npy_dir f)) as [evs [v|e]]; simpl; [|done].
  pose proof (save_data_as_mat_returns W v
    (join_str mat_dir ((splitext f).1 +:+ ".mat"))
    {| files := files st;
       trace := trace st ++ processing_record total idx f
                  :: valid_type_record :: LoadFile (join_str npy_dir f) :: evs |})
    as Hr.
  destruct (Utils.save_data_as_mat _ _ _ _) as [r st2]. simpl in *.
  by subst r.
Qed.

Lemma process_file_returns (idx : nat) (f : string) (st : state) :
  loader_returns W →
  ∃ fs evs,
    round idx f st
    = (Returns (),
       State fs (trace st ++ [processing_record total idx f] ++ evs)).
Proof.
  intros Hl. destruct (Py.endswith f ".npy") eqn:Hf.
  - rewrite process_file_valid by done. simpl.
    destruct (Hl (join_str npy_dir f)) as [v Hv]. rewrite Hv.
    destruct v as [|a|r].
    + rewrite save_data_as_mat_other by done. simpl.
      rewrite <- !app_assoc. simpl. by eexists _, _.
    + rewrite save_data_as_mat_array. simpl.
      rewrite <- !app_assoc. simpl. by eexists _, _.
    + rewrite save_data_as_mat_other by done. simpl.
      rewrite <- !app_assoc. simpl. by eexists _, _.
  - rewrite process_file_invalid by done. by eexists _, _.
Qed.

Lemma process_loop_returns (idx : nat) (l : list string) (st : state) :
  loader_returns W →
  ∃ fs evs,
    Processing.process_loop W ".npy" (Some npy_dir) (Some mat_dir) total idx l st
    = (Returns (), State fs (trace st ++ evs))
    ∧ ∀ i f, l !! i = Some f → processing_record total (idx + i) f ∈ evs.
Proof.
  intros Hl. revert idx st. induction l as [|f l IH]; intros idx st.
  - exists (files st), []. simpl. rewrite app_nil_r. split; [by destruct st|].
    intros i f. by rewrite lookup_nil.
  - rewrite process_loop_cons.
    destruct (process_file_returns idx f st Hl) as (fs1 & evs1 & ->).
    destruct (IH (S idx) (State fs1 (trace st ++ [processing_record total idx f]
                                       ++ evs1)))
      as (fs2 & evs2 & -> & Hin).
    exists fs2, ([processing_record total idx f] ++ evs1 ++ evs2). simpl.
    split; [by rewrite <- !app_assoc|].
    intros [|i] g Hg; simpl in *.
    + injection Hg as ->. rewrite Nat.add_0_r. apply list_elem_of_here.
    + apply list_elem_of_further, elem_of_app. right.
      replace (idx + S i) with (S idx + i) by lia. by apply Hin.
Qed.

End ProcessRound.

(** ** Files of another type *)

(** C8.  A listed file whose name does not end in ".npy" gets the error
    record of the type check between its two bracketing records and nothing
    else: the loader and [savemat] are not called, the files stay as they
    were, and the loop goes on with the next name.  This holds wherever the
    file stands in the list, provided the loop gets there. *)
Theorem wrong_type_skipped (W : world) (path_input path_output : option string)
    (total idx : nat) (pre post : list string) (f : string) (st : state) :
  Py.endswith f ".npy" = false →
  Processing.process_file W ".npy" path_input path_output total idx f st
  = (Returns (),
     State (files st)
       (trace st ++ [processing_record total idx f; invalid_type_record;
                     dashes_record]))
  ∧ Processing.process_loop W ".npy" path_input path_output total idx
      (pre ++ f :: post) st
    = match Processing.process_loop W ".npy" path_input path_output total idx
              pre st with
      | (Returns _, st1) =>
          Processing.process_loop W ".npy" path_input path_output total
            (S (idx + length pre)) post
            (State (files st1)
               (trace st1 ++ [processing_record total (idx + length pre) f;
                              invalid_type_record; dashes_record]))
      | (Raises e, st1) => (Raises e, st1)
      end.
Proof.
  intros Hf. split; [by apply process_file_invalid|].
  rewrite process_loop_app.
  destruct (Processing.process_loop W ".npy" path_input path_output total idx
              pre st) as [[[]|e] st1]; [|done].
  by rewrite process_loop_cons, process_file_invalid.
Qed.

Lemma wrong_type_skipped_witness :
  Processing.process_loop Sample.W ".npy" (Some "in") (Some "out") 3 0
    (["a.npy"] ++ "b.txt" :: ["c.npy"]) Sample.st0
  = match Processing.process_loop Sample.W ".npy" (Some "in") (Some "out") 3 0
            ["a.npy"] Sample.st0 with
    | (Returns _, st1) =>
        Processing.process_loop Sample.W ".npy" (Some "in") (Some "out") 3 2
          ["c.npy"]
          (State (files st1)
             (trace st1 ++ [processing_record 3 1 "b.txt"; invalid_type_record;
                            dashes_record]))
    | (Raises e, st1) => (Raises e, st1)
    end.
Proof.
  exact (proj2 (wrong_type_skipped Sample.W (Some "in") (Some "out") 3 0
                  ["a.npy"] ["c.npy"] "b.txt" Sample.st0 eq_refl)).
Defined.

(** ** Failures of the encoder in the loop *)

(** C2, as the code has it.  When [savemat] fails on a file of the batch,
    [save_data_as_mat] catches the exception and logs it as an error, and
    the loop goes on with the next name.  The destination is left as the
    writer left it: untouched when the file could not be opened, truncated
    when the write broke off.  Nothing is removed. *)
Theorem encode_failure_logged (W : world) (npy_dir mat_dir : string)
    (total idx : nat) (f : string) (rest : list string) (st : state)
    (evs : list event) (a : ndarray) (e : exn) :
  Py.endswith f ".npy" = true →
  load_file W (join_str npy_dir f) = (evs, Returns (PyNdarray a)) →
  write_result (writer W (join_str mat_dir ((splitext f).1 +:+ ".mat"))
                  (data_entry (PyNdarray a))) = Raises e →
  let dest := join_str mat_dir ((splitext f).1 +:+ ".mat") in
  let left_behind :=
    match writer W dest (data_entry (PyNdarray a)) with
    | PutFails _ => <[dest := Truncated]> (files st)
    | _ => files st
    end in
  Processing.process_loop W ".npy" (Some npy_dir) (Some mat_dir) total idx
    (f :: rest) st
  = Processing.process_loop W ".npy" (Some npy_dir) (Some mat_dir) total
      (S idx) rest
      (State left_behind
         (trace st ++
          [processing_record total idx f; valid_type_record;
           LoadFile (join_str npy_dir f)] ++ evs ++
          [Log INFO "Saving file as .mat file";
           Savemat dest (data_entry (PyNdarray a));
           Log ERROR ("Error when saving as .mat file: " +:+ exn_msg e);
           dashes_record])).
Proof.
  intros Hf Hload Hw dest left_behind.
  rewrite process_loop_cons, process_file_valid by done.
  rewrite Hload. simpl. rewrite save_data_as_mat_array. simpl.
  rewrite savemat_target_join. fold dest.
  subst left_behind. fold dest in Hw.
  destruct (writer W dest (data_entry (PyNdarray a))) as [|e'|e'];
    simpl in *; [done| |]; injection Hw as ->;
    by rewrite <- !app_assoc.
Qed.

Lemma encode_failure_logged_witness :
  files (Processing.process_loop Sample.W ".npy" (Some "in") (Some "full") 1 0
           ["a.npy"] Sample.st0).2 !! "full/a.mat" = Some Truncated.
Proof.
  rewrite (encode_failure_logged Sample.W "in" "full" 1 0 "a.npy" []
             Sample.st0 [] Sample.arr Sample.no_space_left
             eq_refl eq_refl eq_refl).
  reflexivity.
Defined.

(** C2 as stated fails: below "full/" the write breaks off after the file
    was created; the batch completes, and the truncated file, which was not
    there before, is still there. *)
Lemma truncated_artifact_remains :
  files Sample.st0 !! "full/a.mat" = None
  ∧ (Processing.process Sample.W (Sample.values "in" "full") Sample.st0).1
    = Returns PyNone
  ∧ files (Processing.process Sample.W (Sample.values "in" "full")
             Sample.st0).2 !! "full/a.mat" = Some Truncated.
Proof. repeat split; vm_compute; reflexivity. Qed.

(** ** The loop of [convert_files] *)

Section ConvertLoop.

Variable W : world.
Variables npy_dir mat_dir : string.

Local Abbreviation loop l := (Npy2Mat.convert_loop W l (Some npy_dir) (Some mat_dir)).

Lemma load_npy_file_run (npy_file : string) (st : state) :
  Npy2Mat.load_npy_file W npy_file st
  = (match np_load W npy_file with
     | Returns v => Returns v
     | Raises e => Raises (load_error e)
     end,
     State (files st) (trace st ++ [NpLoad npy_file])).
Proof.
  unfold Npy2Mat.load_npy_file. run.
  by destruct (np_load W npy_file).
Qed.

(** One conversion: how it ends, by what [np.load] and [savemat] do. *)
Lemma convert_npy_to_mat_run (npy_file mat_file : string) (st : state) :
  Npy2Mat.convert_npy_to_mat W npy_file mat_file st
  = match np_load W npy_file with
    | Raises e =>
        (Returns (),
         State (files st)
           (trace st ++ NpLoad npy_file
              :: conversion_error_events (load_error e)))
    | Returns data =>
        let b := writer W (savemat_target mat_file) (data_entry data) in
        (Returns (),
         State (after_write b (savemat_target mat_file) (data_entry data)
                  (files st))
           (trace st ++ NpLoad npy_file :: Savemat mat_file (data_entry data)
              :: match b with
                 | WriteOk => [Log INFO ("Converted " +:+ npy_file)]
                 | OpenFails e | PutFails e =>
                     conversion_error_events (save_error e)
                 end))
    end.
Proof.
  unfold Npy2Mat.convert_npy_to_mat, try_except, mbind, M_bind, bind.
  rewrite load_npy_file_run.
  destruct (np_load W npy_file) as [data|e]; simpl.
  - rewrite save_mat_file_run. simpl.
    destruct (writer W (savemat_target mat_file) (data_entry data));
      run; by rewrite <- !app_assoc.
  - run. by rewrite <- !app_assoc.
Qed.

Lemma convert_file_run (f : string) (st : state) :
  Npy2Mat.convert_file W (Some npy_dir) (Some mat_dir) f st
  = Npy2Mat.convert_npy_to_mat W (join_str npy_dir f)
      (join_str mat_dir ((splitext f).1 +:+ ".mat")) st.
Proof. done. Qed.

(** A conversion returns, and closes with one record. *)
Lemma convert_file_returns (f : string) (st : state) :
  ∃ fs evs,
    Npy2Mat.convert_file W (Some npy_dir) (Some mat_dir) f st
    = (Returns (), State fs (trace st ++ evs))
    ∧ length (List.filter conversion_record evs) = 1.
Proof.
  rewrite convert_file_run, convert_npy_to_mat_run.
  destruct (np_load W (join_str npy_dir f)) as [data|e].
  - simpl. eexists _, _. split; [done|]. simpl.
    destruct (writer W _ (data_entry data)); simpl; [|done..].
    by rewrite (startswith_append "Converted ").
  - by eexists _, _.
Qed.

Lemma convert_loop_cons (f : string) (rest : list string) (st : state) :
  loop (f :: rest) st
  = loop rest (Npy2Mat.convert_file W (Some npy_dir) (Some mat_dir) f st).2.
Proof.
  destruct (convert_file_returns f st) as (fs & evs & Hf & _).
  simpl. unfold mbind, M_bind, bind. by rewrite Hf.
Qed.

Lemma convert_loop_returns (l : list string) (st : state) :
  ∃ fs evs,
    loop l st = (Returns (), State fs (trace st ++ evs))
    ∧ length (List.filter conversion_record evs) = length l.
Proof.
  revert st. induction l as [|f l IH]; intros st.
  - exists (files st), []. rewrite app_nil_r. by destruct st.
  - rewrite convert_loop_cons.
    destruct (convert_file_returns f st) as (fs1 & evs1 & -> & Hn1). simpl.
    destruct (IH (State fs1 (trace st ++ evs1))) as (fs2 & evs2 & -> & Hn2).
    exists fs2, (evs1 ++ evs2). simpl. rewrite <- app_assoc. split; [done|].
    rewrite List.filter_app, length_app. lia.
Qed.

Lemma convert_loop_app (pre post : list string) (st : state) :
  loop (pre ++ post) st = loop post (loop pre st).2.
Proof.
  revert st. induction pre as [|f pre IH]; intros st; [done|].
  change ((f :: pre) ++ post) with (f :: (pre ++ post)).
  by rewrite !convert_loop_cons, IH.
Qed.

End ConvertLoop.

(** ** The sample batch, run *)

Example sample_batch_log :
  trace (Processing.process Sample.W (Sample.values "in" "out") Sample.st0).2
  = [Log INFO "Reading files from: in";
     Log INFO "Found 3 file(s)";
     Log INFO "Valid file type is .npy";
     Log INFO "Iterating over files...";
     dashes_record;
     processing_record 3 0 "a.npy"; valid_type_record; LoadFile "in/a.npy";
     Log INFO "Saving file as .mat file";
     Savemat "out/a.mat" (data_entry (PyNdarray Sample.arr));
     Log INFO "Saved successfully"; dashes_record;
     processing_record 3 1 "b.txt"; invalid_type_record; dashes_record;
     processing_record 3 2 "c.npy"; valid_type_record; LoadFile "in/c.npy";
     Log ERROR "Could not load the file"; not_an_array_record; dashes_record]
    ++ outro_records (Some "out").
Proof. vm_compute. reflexivity. Qed.

Example sample_batch_files :
  files (Processing.process Sample.W (Sample.values "in" "out") Sample.st0).2
  = {["out/a.mat" := MatFile (stored_entries (data_entry (PyNdarray Sample.arr)))]}.
Proof. vm_compute. reflexivity. Qed.

(** ** Failures of the decoder in the loop *)

Lemma sample_loader_returns : loader_returns Sample.W.
Proof.
  intros path. unfold Sample.W. simpl.
  destruct (bool_decide (path = "in/a.npy")); by eexists.
Qed.

(** The loop of [process] has no handler of its own: an exception that the
    loader lets out ends the loop at that file. *)
Lemma process_loop_loader_raises (W : world) (npy_dir mat_dir : string)
    (total idx : nat) (f : string) (rest : list string) (st : state)
    (evs : list event) (e : exn) :
  Py.endswith f ".npy" = true →
  load_file W (join_str npy_dir f) = (evs, Raises e) →
  (Processing.process_loop W ".npy" (Some npy_dir) (Some mat_dir) total idx
     (f :: rest) st).1 = Raises e.
Proof.
  intros Hf Hload. rewrite process_loop_cons, process_file_valid by done.
  by rewrite Hload.
Qed.

(** How the two loops go on after a file that cannot be decoded.
    In npy2mat.py, when [np.load] raises on a file, the conversion records
    the error (popup and error record), [savemat] is not called for it, and
    the loop runs on the following names from the files as they were; the
    loop over N names returns and leaves N closing records, one per name.
    In processing.py, when the loader hands back a value that is not an
    array, [save_data_as_mat] records the warning, [savemat] is not called,
    and the loop runs on the following names; with a loader that reports
    its failures this way the loop returns, having opened a round for every
    name. *)
Theorem decode_failure_isolated (W : world) (npy_dir mat_dir : string)
    (pre post : list string) (f : string) (st : state) :
  (∀ e, np_load W (join_str npy_dir f) = Raises e →
     Npy2Mat.convert_loop W (pre ++ f :: post) (Some npy_dir) (Some mat_dir) st
     = let st1 :=
         (Npy2Mat.convert_loop W pre (Some npy_dir) (Some mat_dir) st).2 in
       Npy2Mat.convert_loop W post (Some npy_dir) (Some mat_dir)
         (State (files st1)
            (trace st1 ++ NpLoad (join_str npy_dir f)
               :: conversion_error_events (load_error e))))
  ∧ (∃ fs evs,
       Npy2Mat.convert_loop W (pre ++ f :: post) (Some npy_dir) (Some mat_dir) st
       = (Returns (), State fs (trace st ++ evs))
       ∧ length (List.filter conversion_record evs) = length (pre ++ f :: post))
  ∧ (∀ total idx evs v,
       Py.endswith f ".npy" = true →
       load_file W (join_str npy_dir f) = (evs, Returns v) →
       is_ndarray v = false →
       Processing.process_loop W ".npy" (Some npy_dir) (Some mat_dir) total idx
         (pre ++ f :: post) st
       = match Processing.process_loop W ".npy" (Some npy_dir) (Some mat_dir)
                 total idx pre st with
         | (Returns _, st1) =>
             Processing.process_loop W ".npy" (Some npy_dir) (Some mat_dir)
               total (S (idx + length pre)) post
               (State (files st1)
                  (trace st1 ++
                   [processing_record total (idx + length pre) f;
                    valid_type_record; LoadFile (join_str npy_dir f)] ++
                   evs ++ [not_an_array_record; dashes_record]))
         | (Raises e, st1) => (Raises e, st1)
         end)
  ∧ (loader_returns W →
     ∀ total idx, ∃ fs evs,
       Processing.process_loop W ".npy" (Some npy_dir) (Some mat_dir) total idx
         (pre ++ f :: post) st
       = (Returns (), State fs (trace st ++ evs))
       ∧ ∀ i g, (pre ++ f :: post) !! i = Some g →
                processing_record total (idx + i) g ∈ evs).
Proof.
  split; [|split; [|split]].
  - intros e He. rewrite convert_loop_app, convert_loop_cons. simpl.
    by rewrite convert_file_run, convert_npy_to_mat_run, He.
  - apply convert_loop_returns.
  - intros total idx evs v Hf Hload Hv. rewrite process_loop_app.
    destruct (Processing.process_loop W ".npy" (Some npy_dir) (Some mat_dir)
                total idx pre st) as [[[]|e] st1]; [|done].
    rewrite process_loop_cons, process_file_valid by done.
    rewrite Hload. simpl. rewrite save_data_as_mat_other by done. simpl.
    by rewrite <- !app_assoc.
  - intros Hl total idx. by apply process_loop_returns.
Qed.

Lemma decode_failure_isolated_witness :
  Npy2Mat.convert_loop Sample.W (["a.npy"] ++ "c.npy" :: ["a.npy"])
    (Some "in") (Some "out") Sample.st0
  = (let st1 :=
       (Npy2Mat.convert_loop Sample.W ["a.npy"] (Some "in") (Some "out")
          Sample.st0).2 in
     Npy2Mat.convert_loop Sample.W ["a.npy"] (Some "in") (Some "out")
       (State (files st1)
          (trace st1 ++ NpLoad "in/c.npy"
             :: conversion_error_events (load_error Sample.bad_magic))))
  ∧ Processing.process_loop Sample.W ".npy" (Some "in") (Some "out") 3 0
      (["a.npy"] ++ "c.npy" :: ["a.npy"]) Sample.st0
    = match Processing.process_loop Sample.W ".npy" (Some "in") (Some "out")
              3 0 ["a.npy"] Sample.st0 with
      | (Returns _, st1) =>
          Processing.process_loop Sample.W ".npy" (Some "in") (Some "out")
            3 2 ["a.npy"]
            (State (files st1)
               (trace st1 ++
                [processing_record 3 1 "c.npy"; valid_type_record;
                 LoadFile "in/c.npy"] ++
                [Log ERROR "Could not load the file"] ++
                [not_an_array_record; dashes_record]))
      | (Raises e, st1) => (Raises e, st1)
      end
  ∧ ∃ fs evs,
      Processing.process_loop Sample.W ".npy" (Some "in") (Some "out") 3 0
        (["a.npy"] ++ "c.npy" :: ["a.npy"]) Sample.st0
      = (Returns (), State fs (trace Sample.st0 ++ evs)).
Proof.
  destruct (decode_failure_isolated Sample.W "in" "out" ["a.npy"] ["a.npy"]
              "c.npy" Sample.st0) as (H1 & _ & H3 & H4).
  split; [exact (H1 Sample.bad_magic eq_refl)|].
  split; [exact (H3 3 0 [Log ERROR "Could not load the file"] PyNone
                   eq_refl eq_refl eq_refl)|].
  destruct (H4 sample_loader_returns 3 0) as (fs & evs & Hrun & _).
  by exists fs, evs.
Defined.

(** With the loader of the specification, the loop of [process] ends with
    [DecodeError] at a name ending in ".npy" that numpy cannot load: the
    names after it are not reached. *)
Lemma process_loop_decode_error (W : world) (npy_dir mat_dir : string)
    (total idx : nat) (f : string) (rest : list string) (st : state) (e : exn) :
  Py.endswith f ".npy" = true →
  np_load W (join_str npy_dir f) = Raises e →
  Processing.process_loop (with_spec_loader W) ".npy" (Some npy_dir)
    (Some mat_dir) total idx (f :: rest) st
  = (Raises (decode_error e),
     State (files st)
       (trace st ++ [processing_record total idx f; valid_type_record;
                     LoadFile (join_str npy_dir f)])).
Proof.
  intros Hf He. rewrite process_loop_cons, process_file_valid by done.
  simpl. unfold spec_load_file. rewrite He. simpl.
  by rewrite ?app_nil_r.
Qed.


(** ** What [process] returns *)

Lemma process_run (W : world) (values : gmap string string) (src : string)
    (st : state) :
  values !! "-NPY_DIR-" = Some src →
  ∃ evs0,
    Processing.process W values st
    = match Processing.process_loop W ".npy" (Some src) (values !! "-MAT_DIR-")
              (length (listed W src)) 0 (listed W src)
              (State (files st) (trace st ++ evs0)) with
      | (Returns _, st2) =>
          (Returns PyNone,
           State (files st2)
             (trace st2 ++ outro_records (values !! "-MAT_DIR-")))
      | (Raises e, st2) => (Raises e, st2)
      end.
Proof.
  intros Hsrc. unfold Processing.process. rewrite Hsrc.
  destruct (utils_filenames_in_dir_returns W src st) as [evs Hl].
  unfold mbind, M_bind, bind. rewrite Hl.
  unfold Processing._intro. run. rewrite <- !app_assoc. simpl.
  exists (evs ++ [Log INFO "Valid file type is .npy";
                  Log INFO "Iterating over files...";
                  Log INFO (Py.repeat_char "-" 50)]).
  destruct (Processing.process_loop W ".npy" (Some src) (values !! "-MAT_DIR-")
              (length (listed W src)) 0 (listed W src) _) as [[[]|e] st2];
    [|done].
  unfold outro_records. by rewrite <- !app_assoc.
Qed.

(** C3, as the code has it.  For a source and a destination directory,
    [process] returns nothing but [None]: no counts and no per-file results
    come back.  What it reports goes to the log: with a loader that does not
    raise the call completes, the log has a "Processing file" record for
    every listed file, with its position and the number of files, and ends
    with the closing records that name the destination directory. *)
Theorem process_returns_none (W : world) (values : gmap string string)
    (src dst : string) (st : state) :
  values !! "-NPY_DIR-" = Some src →
  values !! "-MAT_DIR-" = Some dst →
  (∀ v st', Processing.process W values st = (Returns v, st') → v = PyNone)
  ∧ (loader_returns W →
     ∃ fs evs,
       Processing.process W values st
       = (Returns PyNone,
          State fs (trace st ++ evs ++ outro_records (Some dst)))
       ∧ ∀ i f, listed W src !! i = Some f →
                processing_record (length (listed W src)) i f ∈ evs).
Proof.
  intros Hsrc Hdst. destruct (process_run W values src st Hsrc) as [evs0 Hrun].
  rewrite Hrun, Hdst. split.
  - intros v st'.
    destruct (Processing.process_loop W ".npy" (Some src) (Some dst) _ 0 _ _)
      as [[[]|e] st2]; congruence.
  - intros Hl.
    destruct (process_loop_returns W src dst (length (listed W src)) 0
                (listed W src) (State (files st) (trace st ++ evs0)) Hl)
      as (fs & evs & -> & Hin).
    exists fs, (evs0 ++ evs). simpl. rewrite <- !app_assoc. split; [done|].
    intros i f Hf. apply elem_of_app. right. by apply (Hin i f).
Qed.

Lemma process_returns_none_witness :
  ∃ fs evs,
    Processing.process Sample.W (Sample.values "in" "out") Sample.st0
    = (Returns PyNone,
       State fs (trace Sample.st0 ++ evs ++ outro_records (Some "out"))).
Proof.
  destruct (proj2 (process_returns_none Sample.W (Sample.values "in" "out")
                     "in" "out" Sample.st0 eq_refl eq_refl)
              sample_loader_returns) as (fs & evs & Hrun & _).
  by exists fs, evs.
Defined.

(** C3 as stated fails: a batch of three files and a batch whose directory
    cannot be listed both give [None], which carries no count and no
    result. *)
Lemma process_gives_no_summary :
  (Processing.process Sample.W (Sample.values "in" "out") Sample.st0).1
  = Returns PyNone
  ∧ (Processing.process Sample.W (Sample.values "nowhere" "out") Sample.st0).1
    = Returns PyNone
  ∧ listed Sample.W "in" = ["a.npy"; "b.txt"; "c.npy"]
  ∧ listed Sample.W "nowhere" = [].
Proof. repeat split; vm_compute; reflexivity. Qed.

(** ** [os.path.splitext] and the extension of a name *)

Lemma has_char_append (c : ascii) (a b : string) :
  has_char c (a +:+ b) = has_char c a || has_char c b.
Proof.
  induction a as [|x a IH]; [done|].
  change (has_char c (String x (a +:+ b))
          = has_char c (String x a) || has_char c b).
  simpl. rewrite IH. by rewrite orb_assoc.
Qed.

Lemma rfind_nat_none (c : ascii) (s : string) :
  has_char c s = false → Py.rfind_nat c s = None.
Proof.
  induction s as [|x s IH]; simpl; [done|].
  intros [Hx Hs]%orb_false_elim. rewrite IH by done.
  apply bool_decide_eq_false in Hx. by rewrite decide_False.
Qed.

(** The last occurrence of [c] is the one after which there is none. *)
Lemma rfind_nat_last (c : ascii) (a e : string) :
  has_char c e = false →
  Py.rfind_nat c (a +:+ String c e) = Some (String.length a).
Proof.
  intros He. induction a as [|x a IH].
  - simpl. rewrite rfind_nat_none by done. by rewrite decide_True.
  - change (Py.rfind_nat c (String x (a +:+ String c e))
            = Some (S (String.length a))).
    simpl. by rewrite IH.
Qed.

Lemma rfind_nat_some (c : ascii) (s : string) (i : nat) :
  Py.rfind_nat c s = Some i →
  ∃ a e, s = a +:+ String c e ∧ String.length a = i ∧ has_char c e = false.
Proof.
  revert i. induction s as [|x s IH]; intros i; simpl; [done|].
  destruct (Py.rfind_nat c s) as [j|] eqn:Hj.
  - intros [= <-]. destruct (IH j eq_refl) as (a & e & -> & <- & He).
    by exists (String x a), e.
  - destruct (decide (x = c)) as [->|]; [|done]. intros [= <-].
    exists "", s. repeat split.
    destruct (has_char c s) eqn:Hs; [|done].
    clear IH. exfalso. induction s as [|y s IH]; simpl in *; [done|].
    destruct (Py.rfind_nat c s); [done|].
    destruct (decide (y = c)) as [->|Hy]; [done|].
    rewrite bool_decide_eq_false_2 in Hs by done. by apply IH.
Qed.

Lemma rfind_nat_has_char (c : ascii) (s : string) :
  has_char c s = true → ∃ i, Py.rfind_nat c s = Some i.
Proof.
  intros Hs. destruct (Py.rfind_nat c s) as [i|] eqn:Hi; [by exists i|].
  exfalso. induction s as [|y s IH]; simpl in *; [done|].
  destruct (Py.rfind_nat c s); [done|].
  destruct (decide (y = c)) as [->|Hy]; [done|].
  rewrite bool_decide_eq_false_2 in Hs by done. by apply IH.
Qed.

(** Past a character that is not [c], the search goes on in what comes
    before when there is no [c] behind, and stays behind otherwise. *)
Lemma rfind_nat_before (c d : ascii) (a e : string) :
  d ≠ c → has_char c e = false →
  Py.rfind_nat c (a +:+ String d e) = Py.rfind_nat c a.
Proof.
  intros Hd He. induction a as [|x a IH].
  - simpl. rewrite rfind_nat_none by done. by rewrite decide_False.
  - change (Py.rfind_nat c (String x (a +:+ String d e))
            = Py.rfind_nat c (String x a)).
    simpl. by rewrite IH.
Qed.

Lemma rfind_nat_behind (c d : ascii) (a e : string) :
  has_char c e = true →
  ∃ j, Py.rfind_nat c (a +:+ String d e) = Some j ∧ String.length a < j.
Proof.
  intros He. destruct (rfind_nat_has_char c e He) as [i Hi].
  exists (String.length a + S i). split; [|lia].
  induction a as [|x a IH].
  - simpl. by rewrite Hi.
  - change (Py.rfind_nat c (String x (a +:+ String d e))
            = Some (S (String.length a + S i))).
    simpl. by rewrite IH.
Qed.

Lemma rfind_nat_bound (c : ascii) (s : string) (i : nat) :
  Py.rfind_nat c s = Some i → i < String.length s.
Proof.
  intros (a & e & -> & <- & _)%rfind_nat_some.
  rewrite length_append. simpl. lia.
Qed.

Lemma strip_from_no_dot (seen : bool) (s : string) :
  has_char "." s = false → strip_from seen s = s.
Proof.
  revert seen. induction s as [|c s IH]; intros seen; simpl; [done|].
  intros [Hc Hs]%orb_false_elim. rewrite Hc.
  destruct (bool_decide (c = "/"%char)); by rewrite IH.
Qed.

(** Nothing is cut off while a dot or a separator is still ahead. *)
Lemma strip_from_prefix (seen : bool) (a t : string) :
  has_char "." t || has_char "/" t = true →
  strip_from seen (a +:+ t) = a +:+ strip_from (seen_after seen a) t.
Proof.
  intros Ht. revert seen. induction a as [|c a IH]; intros seen; [done|].
  change (strip_from seen (String c (a +:+ t))
          = String c (a +:+ strip_from (seen_after seen (String c a)) t)).
  simpl. rewrite !has_char_append.
  destruct (bool_decide (c = "/"%char)); [by rewrite IH|].
  destruct (bool_decide (c = "."%char)); [|by rewrite IH].
  replace (seen && negb (has_char "." a || has_char "." t)
           && negb (has_char "/" a || has_char "/" t)) with false.
  - by rewrite IH.
  - destruct seen, (has_char "." a), (has_char "." t), (has_char "/" a),
      (has_char "/" t); done.
Qed.

Lemma seen_after_append (seen : bool) (x y : string) :
  seen_after seen (x +:+ y) = seen_after (seen_after seen x) y.
Proof.
  revert seen. induction x as [|c x IH]; intros seen; [done|].
  change (seen_after seen (String c (x +:+ y))
          = seen_after (seen_after seen (String c x)) y).
  simpl. by rewrite IH.
Qed.

Lemma seen_after_component (seen : bool) (comp : string) :
  has_char "/" comp = false → seen_after seen comp = seen || has_nondot comp.
Proof.
  revert seen. induction comp as [|c comp IH]; intros seen; simpl.
  - by rewrite orb_false_r.
  - intros [Hc Hs]%orb_false_elim. rewrite Hc, IH by done.
    destruct (bool_decide (c = "."%char)); simpl; [done|].
    by rewrite orb_true_r.
Qed.

Lemma splitext_scan_shift (n : nat) (c : ascii) (s : string) (i j : nat) :
  splitext_scan n (String c s) (S i) (S j) = splitext_scan n s i j.
Proof.
  revert i. induction n as [|n IH]; intros i; [done|].
  simpl. change (S i <? S j) with (i <? j).
  destruct (i <? j); [|done].
  destruct (bool_decide (String.substring i 1 s ≠ ".")); [done|].
  apply IH.
Qed.

Lemma splitext_scan_skip (n : nat) (h s : string) (i j : nat) :
  splitext_scan n (h +:+ s) (String.length h + i) (String.length h + j)
  = splitext_scan n s i j.
Proof.
  induction h as [|c h IH]; [done|].
  change (splitext_scan n (String c (h +:+ s)) (S (String.length h + i))
            (S (String.length h + j)) = splitext_scan n s i j).
  by rewrite splitext_scan_shift.
Qed.

(** The scan over a whole component finds out whether it has a character
    other than the dot. *)
Lemma splitext_scan_component (n : nat) (comp rest : string) :
  String.length comp ≤ n →
  splitext_scan n (comp +:+ rest) 0 (String.length comp) = has_nondot comp.
Proof.
  revert n. induction comp as [|c comp IH]; intros n Hn.
  - by destruct n.
  - destruct n as [|n]; simpl in Hn; [lia|].
    change (splitext_scan (S n) (String c (comp +:+ rest)) 0
              (S (String.length comp)) = has_nondot (String c comp)).
    simpl. assert (String.substring 0 0 (comp +:+ rest) = "") as ->
      by by destruct (comp +:+ rest).
    destruct (decide (c = "."%char)) as [->|Hc].
    + rewrite bool_decide_eq_false_2 by (intros H; by apply H).
      rewrite splitext_scan_shift. simpl. apply IH. lia.
    + rewrite bool_decide_eq_true_2; [|intros [= ?]; done].
      by rewrite (bool_decide_eq_false_2 (c = "."%char)).
Qed.

Lemma rfind_nat_none_inv (c : ascii) (s : string) :
  Py.rfind_nat c s = None → has_char c s = false.
Proof.
  intros Hn. destruct (has_char c s) eqn:Hs; [|done].
  destruct (rfind_nat_has_char c s Hs) as [i Hi]. congruence.
Qed.

(** The scan of [splitext] over the last component of what stands before
    the last dot computes the flag of [strip_from]. *)
Lemma splitext_scan_seen (a rest : string) :
  splitext_scan (String.length a) (a +:+ rest)
    (Z.to_nat (Py.rfind a "/" + 1)) (String.length a)
  = seen_after false a.
Proof.
  unfold Py.rfind. destruct (Py.rfind_nat "/" a) as [j|] eqn:Hj.
  - destruct (rfind_nat_some _ _ _ Hj) as (h & comp & -> & <- & Hcomp).
    replace (Z.to_nat (Z.of_nat (String.length h) + 1))
      with (String.length (h +:+ "/") + 0)
      by (rewrite length_append; simpl; lia).
    replace (String.length (h +:+ String "/" comp))
      with (String.length (h +:+ "/") + String.length comp)
      by (rewrite !length_append; simpl; lia).
    replace ((h +:+ String "/" comp) +:+ rest)
      with ((h +:+ "/") +:+ comp +:+ rest)
      by (by rewrite !append_assoc).
    rewrite splitext_scan_skip, splitext_scan_component by lia.
    rewrite seen_after_append. simpl.
    by rewrite seen_after_component.
  - simpl. rewrite splitext_scan_component by lia.
    by rewrite seen_after_component by by apply rfind_nat_none_inv.
Qed.

(** What [os.path.splitext] keeps is the name without its extension. *)
Lemma splitext_root (p : string) : (splitext p).1 = strip_extension p.
Proof.
  unfold splitext, strip_extension.
  destruct (Py.rfind_nat "." p) as [i|] eqn:Hdot.
  - destruct (rfind_nat_some _ _ _ Hdot) as (a & e & -> & <- & He).
    assert (Py.rfind (a +:+ String "." e) "." = Z.of_nat (String.length a))
      as -> by (unfold Py.rfind; by rewrite Hdot).
    rewrite strip_from_prefix by done. simpl. rewrite He. simpl.
    rewrite (strip_from_no_dot _ e) by done. rewrite Nat2Z.id.
    destruct (has_char "/" e) eqn:Hsep.
    + destruct (rfind_nat_behind "/" "." a e Hsep) as (j & Hj & Hlt).
      unfold Py.rfind. rewrite Hj.
      rewrite bool_decide_eq_false_2 by lia. simpl.
      by rewrite andb_false_r.
    + assert (Py.rfind (a +:+ String "." e) "/" = Py.rfind a "/") as ->.
      { unfold Py.rfind. by rewrite rfind_nat_before. }
      rewrite bool_decide_eq_true_2.
      2:{ unfold Py.rfind. destruct (Py.rfind_nat "/" a) as [j|] eqn:Hj; [|lia].
          apply rfind_nat_bound in Hj. lia. }
      rewrite splitext_scan_seen, andb_true_r.
      destruct (seen_after false a); simpl; [|done].
      unfold Py.slice_to. by rewrite substring_prefix, append_empty_r.
  - rewrite strip_from_no_dot by by apply rfind_nat_none_inv.
    assert (Py.rfind p "." = (-1)%Z) as ->
      by (unfold Py.rfind; by rewrite Hdot).
    rewrite bool_decide_eq_false_2; [done|].
    unfold Py.rfind. destruct (Py.rfind_nat "/" p); lia.
Qed.

Lemma strip_extension_of (stem e : string) :
  has_char "/" stem = false → has_nondot stem = true →
  has_char "." e = false → has_char "/" e = false →
  strip_extension (stem +:+ String "." e) = stem.
Proof.
  intros Hsep Hnd He1 He2. unfold strip_extension.
  rewrite strip_from_prefix by done.
  rewrite seen_after_component, Hnd by done. simpl.
  by rewrite He1, He2, append_empty_r.
Qed.

Lemma startswith_sep_no_sep (stem tail : string) :
  has_char "/" stem = false → has_char "/" tail = false →
  Py.startswith (stem +:+ tail) "/" = false.
Proof.
  intros Hs Ht. assert (has_char "/" (stem +:+ tail) = false) as Hall
    by by rewrite has_char_append, Hs, Ht.
  unfold Py.startswith, Py.len.
  destruct (stem +:+ tail) as [|c s]; [done|]. simpl in *.
  apply orb_false_elim in Hall as [Hc _]. apply bool_decide_eq_false in Hc.
  assert (String.substring 0 0 s = "") as -> by by destruct s.
  apply bool_decide_eq_false. by intros [= ?].
Qed.

(** ** The destination path *)

(** C7.  The destination path that [_gen_filepaths] and [convert_files]
    derive is the resolver's: the destination directory joined with the
    name without its extension followed by ".mat".  It ends in ".mat"; for a
    plain name stem.ext and a destination directory that is not empty and
    does not end in a separator, it is the directory, a separator, the stem
    and ".mat". *)
Theorem destination_path_resolved (W : world)
    (npy_dir filename mat_dir : string) (st : state) :
  Processing._gen_filepaths (Some npy_dir) filename (Some mat_dir)
  = Returns (join_str npy_dir filename, resolve npy_dir filename mat_dir)
  ∧ Npy2Mat.convert_file W (Some npy_dir) (Some mat_dir) filename st
    = Npy2Mat.convert_npy_to_mat W (join_str npy_dir filename)
        (resolve npy_dir filename mat_dir) st
  ∧ (∃ p, resolve npy_dir filename mat_dir = p +:+ ".mat")
  ∧ (∀ stem e,
       filename = stem +:+ String "." e →
       has_char "/" stem = false → has_nondot stem = true →
       has_char "." e = false → has_char "/" e = false →
       mat_dir ≠ "" → Py.endswith mat_dir "/" = false →
       resolve npy_dir filename mat_dir = mat_dir +:+ "/" +:+ stem +:+ ".mat").
Proof.
  unfold resolve. rewrite <- splitext_root. split; [done|]. split; [done|].
  split.
  - destruct (join_str_suffix mat_dir ((splitext filename).1 +:+ ".mat"))
      as [p Hp].
    exists (p +:+ (splitext filename).1). by rewrite Hp, append_assoc.
  - intros stem e -> Hs Hnd He1 He2 Hdir Hend.
    rewrite splitext_root, strip_extension_of by done.
    unfold join_str. rewrite startswith_sep_no_sep, Hend by done.
    by rewrite bool_decide_eq_false_2.
Qed.

Lemma destination_path_resolved_witness :
  resolve "in" "a.npy" "out" = "out/a.mat".
Proof.
  exact (proj2 (proj2 (proj2
    (destination_path_resolved Sample.W "in" "a.npy" "out" Sample.st0)))
    "a" "npy" eq_refl eq_refl eq_refl eq_refl eq_refl
    ltac:(discriminate) eq_refl).
Defined.

(** * Further properties of the code *)

(** ** What a run does to the state *)

Lemma quiet_app (l1 l2 : list event) : quiet l1 → quiet l2 → quiet (l1 ++ l2).
Proof. unfold quiet. intros. by apply Forall_app. Qed.

(** Goals of the form [quiet (l1 ++ x :: l2 ++ ...)]. *)
Ltac quiet_tac :=
  unfold quiet in *;
  repeat (rewrite Forall_app || rewrite Forall_cons || rewrite Forall_nil);
  repeat split; solve [done | assumption].

Lemma process_file_no_directory (W : world) (path_input path_output : option string)
    (total idx : nat) (f : string) (st : state) :
  Py.endswith f ".npy" = true →
  path_input = None ∨ path_output = None →
  Processing.process_file W ".npy" path_input path_output total idx f st
  = (Raises type_error_none,
     State (files st)
       (trace st ++ [processing_record total idx f; valid_type_record])).
Proof.
  intros Hf Hnone.
  unfold Processing.process_file, Utils.validate_file_type,
    Processing._gen_filepaths.
  rewrite Hf. run.
  destruct path_input as [src|], path_output as [dst|]; simpl;
    try (by rewrite <- !app_assoc).
  by destruct Hnone.
Qed.

(** A round of [process] overlays the files with what it writes and appends
    to the log; what it writes and appends does not depend on the state. *)
Lemma process_file_effect (W : world) (path_input path_output : option string)
    (total idx : nat) (f : string) :
  ∃ (r : outcome unit) (D : gmap string artifact) (evs : list event),
    (∀ st, Processing.process_file W ".npy" path_input path_output total idx f st
           = (r, State (D ∪ files st) (trace st ++ evs)))
    ∧ (∀ p, is_Some (D !! p) → destination_of path_input path_output [f] p).
Proof.
  destruct (Py.endswith f ".npy") eqn:Hf.
  2:{ exists (Returns ()), ∅, [processing_record total idx f; invalid_type_record;
                                dashes_record].
      split.
      - intros st. rewrite process_file_invalid by done.
        by rewrite (left_id_L ∅ (∪)).
      - intros p [a Ha]. by rewrite lookup_empty in Ha. }
  destruct path_input as [src|].
  2:{ exists (Raises type_error_none), ∅,
        [processing_record total idx f; valid_type_record].
      split.
      - intros st. rewrite process_file_no_directory by auto.
        by rewrite (left_id_L ∅ (∪)).
      - intros p [a Ha]. by rewrite lookup_empty in Ha. }
  destruct path_output as [dst|].
  2:{ exists (Raises type_error_none), ∅,
        [processing_record total idx f; valid_type_record].
      split.
      - intros st. rewrite process_file_no_directory by auto.
        by rewrite (left_id_L ∅ (∪)).
      - intros p [a Ha]. by rewrite lookup_empty in Ha. }
  assert (∀ p : string,
            p = join_str dst ((splitext f).1 +:+ ".mat") →
            destination_of (Some src) (Some dst) [f] p) as Hdest.
  { intros p ->. exists src, dst, f. repeat split; try done.
    apply list_elem_of_here. }
  destruct (load_file W (join_str src f)) as [levs [v|e]] eqn:Hload.
  2:{ eexists (Raises e), ∅, _. split.
      - intros st. rewrite process_file_valid by done. rewrite Hload. simpl.
        by rewrite (left_id_L ∅ (∪)).
      - intros p [a Ha]. by rewrite lookup_empty in Ha. }
  destruct (is_ndarray v) eqn:Hv.
  2:{ eexists (Returns ()), ∅, _. split.
      - intros st. rewrite process_file_valid by done. rewrite Hload. simpl.
        rewrite save_data_as_mat_other by done. simpl.
        rewrite (left_id_L ∅ (∪)). by rewrite <- !app_assoc.
      - intros p [a Ha]. by rewrite lookup_empty in Ha. }
  destruct v as [|a|]; try done.
  destruct (writer W (join_str dst ((splitext f).1 +:+ ".mat"))
              (data_entry (PyNdarray a))) as [|e|e] eqn:Hw.
  - eexists (Returns ()),
      {[join_str dst ((splitext f).1 +:+ ".mat")
        := MatFile (stored_entries (data_entry (PyNdarray a)))]}, _.
    split.
    + intros st. rewrite process_file_valid by done. rewrite Hload. simpl.
      rewrite save_data_as_mat_array. simpl.
      rewrite savemat_target_join, Hw. simpl.
      rewrite insert_union_singleton_l. by rewrite <- !app_assoc.
    + intros p [b Hb]. apply Hdest.
      apply lookup_singleton_Some in Hb. by destruct Hb.
  - eexists (Returns ()), ∅, _. split.
    + intros st. rewrite process_file_valid by done. rewrite Hload. simpl.
      rewrite save_data_as_mat_array. simpl.
      rewrite savemat_target_join, Hw. simpl.
      rewrite (left_id_L ∅ (∪)). by rewrite <- !app_assoc.
    + intros p [b Hb]. by rewrite lookup_empty in Hb.
  - eexists (Returns ()),
      {[join_str dst ((splitext f).1 +:+ ".mat") := Truncated]}, _.
    split.
    + intros st. rewrite process_file_valid by done. rewrite Hload. simpl.
      rewrite save_data_as_mat_array. simpl.
      rewrite savemat_target_join, Hw. simpl.
      rewrite insert_union_singleton_l. by rewrite <- !app_assoc.
    + intros p [b Hb]. apply Hdest.
      apply lookup_singleton_Some in Hb. by destruct Hb.
Qed.

Lemma destination_of_cons (src dst : option string) (f : string)
    (l : list string) (p : string) :
  destination_of src dst [f] p ∨ destination_of src dst l p →
  destination_of src dst (f :: l) p.
Proof.
  intros [(s & d & g & -> & -> & Hg & Hv & ->)|(s & d & g & -> & -> & Hg & Hv & ->)];
    exists s, d, g; repeat split; try done.
  - apply list_elem_of_singleton in Hg as ->. apply list_elem_of_here.
  - by apply list_elem_of_further.
Qed.

Lemma process_loop_effect (W : world) (path_input path_output : option string)
    (total idx : nat) (l : list string) :
  ∃ (r : outcome unit) (D : gmap string artifact) (evs : list event),
    (∀ st, Processing.process_loop W ".npy" path_input path_output total idx l st
           = (r, State (D ∪ files st) (trace st ++ evs)))
    ∧ (∀ p, is_Some (D !! p) → destination_of path_input path_output l p).
Proof.
  revert idx. induction l as [|f l IH]; intros idx.
  - exists (Returns ()), ∅, []. split.
    + intros [fs tr]. simpl. by rewrite (left_id_L ∅ (∪)), app_nil_r.
    + intros p [a Ha]. by rewrite lookup_empty in Ha.
  - destruct (process_file_effect W path_input path_output total idx f)
      as (r1 & D1 & evs1 & Hrun1 & Hdom1).
    destruct r1 as [[]|e].
    + destruct (IH (S idx)) as (r2 & D2 & evs2 & Hrun2 & Hdom2).
      exists r2, (D2 ∪ D1), (evs1 ++ evs2). split.
      * intros st. rewrite process_loop_cons, Hrun1, Hrun2. simpl.
        by rewrite (assoc_L (∪)), app_assoc.
      * intros p Hp. apply destination_of_cons.
        apply lookup_union_is_Some in Hp as [Hp|Hp]; auto.
    + exists (Raises e), D1, evs1. split.
      * intros st. by rewrite process_loop_cons, Hrun1.
      * intros p Hp. apply destination_of_cons. auto.
Qed.

Lemma only_files_none (W : world) (names : list string) :
  Utils.only_files W None names
  = match names with
    | [] => Returns []
    | _ :: _ => Raises type_error_none
    end.
Proof. by destruct names. Qed.

(** Without a directory to list, nothing is listed: [os.listdir(None)] lists
    the current directory, and joining [None] with the first name raises the
    [TypeError] that [filenames_in_dir] catches. *)
Lemma listing_without_directory (W : world) :
  ∃ evs1 evs2,
    quiet evs1 ∧ quiet evs2
    ∧ ∀ st,
        Utils.filenames_in_dir W None st
        = (Returns [], State (files st) (trace st ++ evs1))
        ∧ Npy2Mat.filenames_in_dir W None st
          = (Returns [], State (files st) (trace st ++ evs2)).
Proof.
  unfold Utils.filenames_in_dir, Npy2Mat.filenames_in_dir. run.
  destruct (os_listdir W None) as [[|n names]|e]; simpl.
  - exists [Log INFO "Reading files from: None";
            Log INFO ("Found " +:+ Py.str_of_nat 0 +:+ " file(s)")], [].
    split; [by repeat constructor|]. split; [constructor|].
    intros [fs tr]. simpl. by rewrite <- !app_assoc, app_nil_r.
  - exists [Log INFO "Reading files from: None";
            Log ERROR ("Error reading directory: " +:+ exn_msg type_error_none
                       +:+ ". Returning empty list")],
      [Popup ["Error reading directory"; exn_msg type_error_none] None;
       Log ERROR ("Error reading directory: " +:+ exn_msg type_error_none)].
    split; [by repeat constructor|]. split; [by repeat constructor|].
    intros st. by rewrite <- !app_assoc.
  - exists [Log INFO "Reading files from: None";
            Log ERROR ("Error reading directory: " +:+ exn_msg e
                       +:+ ". Returning empty list")],
      [Popup ["Error reading directory"; exn_msg e] None;
       Log ERROR ("Error reading directory: " +:+ exn_msg e)].
    split; [by repeat constructor|]. split; [by repeat constructor|].
    intros st. by rewrite <- !app_assoc.
Qed.

Lemma utils_filenames_in_dir_effect (W : world) (path : option string) :
  ∃ evs,
    quiet evs
    ∧ ∀ st, Utils.filenames_in_dir W path st
            = (Returns (from_option (listed W) [] path),
               State (files st) (trace st ++ evs)).
Proof.
  destruct path as [src|]; simpl.
  - unfold Utils.filenames_in_dir, listed. run.
    destruct (os_listdir W (Some src)) as [names|e]; simpl.
    + rewrite only_files_filter. simpl.
      exists [Log INFO ("Reading files from: " +:+ src);
              Log INFO ("Found " +:+ Py.str_of_nat (length
                (List.filter (λ f, os_isfile W (join_str src f)) names))
                +:+ " file(s)")].
      split; [by repeat constructor|].
      intros st. by rewrite <- !app_assoc.
    + exists [Log INFO ("Reading files from: " +:+ src);
              Log ERROR ("Error reading directory: " +:+ exn_msg e
                         +:+ ". Returning empty list")].
      split; [by repeat constructor|].
      intros st. by rewrite <- !app_assoc.
  - destruct (listing_without_directory W) as (evs1 & evs2 & Hq & _ & Hrun).
    exists evs1. split; [done|]. intros st. by destruct (Hrun st).
Qed.

Lemma npy2mat_filenames_in_dir_effect (W : world) (path : option string) :
  ∃ evs,
    quiet evs
    ∧ ∀ st, Npy2Mat.filenames_in_dir W path st
            = (Returns (from_option (listed W) [] path),
               State (files st) (trace st ++ evs)).
Proof.
  destruct path as [src|]; simpl.
  - unfold Npy2Mat.filenames_in_dir, listed. run.
    destruct (os_listdir W (Some src)) as [names|e]; simpl.
    + rewrite only_files_filter. exists []. split; [constructor|].
      intros [fs tr]. simpl. by rewrite app_nil_r.
    + exists [Popup ["Error reading directory"; exn_msg e] None;
              Log ERROR ("Error reading directory: " +:+ exn_msg e)].
      split; [by repeat constructor|].
      intros st. by rewrite <- !app_assoc.
  - destruct (listing_without_directory W) as (evs1 & evs2 & _ & Hq & Hrun).
    exists evs2. split; [done|]. intros st. by destruct (Hrun st).
Qed.

(** The whole of [process], in one equation. *)
Lemma process_effect (W : world) (values : gmap string string) :
  ∃ (r : outcome pyval) (D : gmap string artifact) (evs : list event),
    (∀ st, Processing.process W values st
           = (r, State (D ∪ files st) (trace st ++ evs)))
    ∧ (∀ v, r = Returns v → v = PyNone)
    ∧ (∀ p, is_Some (D !! p) →
         destination_of (values !! "-NPY_DIR-") (values !! "-MAT_DIR-")
           (from_option (listed W) [] (values !! "-NPY_DIR-")) p).
Proof.
  destruct (utils_filenames_in_dir_effect W (values !! "-NPY_DIR-"))
    as (evs0 & _ & Hlist).
  set (names := from_option (listed W) [] (values !! "-NPY_DIR-")) in *.
  destruct (process_loop_effect W (values !! "-NPY_DIR-") (values !! "-MAT_DIR-")
              (length names) 0 names) as (r & D & evs & Hloop & Hdom).
  destruct r as [[]|e].
  - exists (Returns PyNone), D,
      (evs0 ++ [Log INFO "Valid file type is .npy";
                Log INFO "Iterating over files..."; dashes_record]
            ++ evs ++ outro_records (values !! "-MAT_DIR-")).
    split; [|split; [|done]].
    + intros st. unfold Processing.process, mbind, M_bind, bind.
      rewrite Hlist. fold names. unfold Processing._intro. run.
      rewrite Hloop. unfold Processing._outro, outro_records. run.
      rewrite <- !app_assoc. reflexivity.
    + by intros v [= <-].
  - exists (Raises e), D,
      (evs0 ++ [Log INFO "Valid file type is .npy";
                Log INFO "Iterating over files..."; dashes_record] ++ evs).
    split; [|split; [|done]].
    + intros st. unfold Processing.process, mbind, M_bind, bind.
      rewrite Hlist. fold names. unfold Processing._intro. run.
      rewrite Hloop. simpl. rewrite <- !app_assoc. reflexivity.
    + by intros v [=].
Qed.

(** X1.  [process] changes no path other than the destinations of the
    listed names that end in ".npy" (source files, and everything else, stay
    as they were), and it only appends to the log. *)
Theorem process_frame (W : world) (values : gmap string string) (st : state)
    (p : string) :
  ¬ destination_of (values !! "-NPY_DIR-") (values !! "-MAT_DIR-")
      (from_option (listed W) [] (values !! "-NPY_DIR-")) p →
  files (Processing.process W values st).2 !! p = files st !! p
  ∧ ∃ evs, trace (Processing.process W values st).2 = trace st ++ evs.
Proof.
  intros Hp. destruct (process_effect W values) as (r & D & evs & Hrun & _ & Hdom).
  rewrite Hrun. simpl. split; [|by exists evs].
  destruct (D !! p) as [a|] eqn:HD.
  - destruct Hp. apply Hdom. by exists a.
  - by rewrite lookup_union_r.
Qed.

Lemma sample_not_a_destination :
  ¬ destination_of (Some "in") (Some "out") (listed Sample.W "in") "in/a.npy".
Proof.
  intros (s & d & f & _ & [= <-] & Hf & _ & Heq).
  change (listed Sample.W "in") with ["a.npy"; "b.txt"; "c.npy"] in Hf.
  repeat (apply elem_of_cons in Hf as [->|Hf]; [by vm_compute in Heq|]).
  by apply elem_of_nil in Hf.
Qed.

Lemma process_frame_witness :
  files (Processing.process Sample.W (Sample.values "in" "out") Sample.st0).2
    !! "in/a.npy" = files Sample.st0 !! "in/a.npy".
Proof.
  exact (proj1 (process_frame Sample.W (Sample.values "in" "out") Sample.st0
                  "in/a.npy" sample_not_a_destination)).
Defined.

(** ** Missing keys *)

(** X3.  When [values] has no "-NPY_DIR-", [process] converts nothing,
    whatever the current directory holds: it completes with [None], leaves
    the files as they were, and calls neither the loader nor the writer. *)
Theorem process_without_source (W : world) (values : gmap string string)
    (st : state) :
  values !! "-NPY_DIR-" = None →
  ∃ evs,
    Processing.process W values st
    = (Returns PyNone, State (files st) (trace st ++ evs))
    ∧ quiet evs.
Proof.
  intros Hsrc.
  destruct (utils_filenames_in_dir_effect W None) as (evs0 & Hq & Hlist).
  exists (evs0 ++ [Log INFO "Valid file type is .npy";
                   Log INFO "Iterating over files..."; dashes_record]
               ++ outro_records (values !! "-MAT_DIR-")).
  split.
  - unfold Processing.process, mbind, M_bind, bind. rewrite Hsrc, Hlist. simpl.
    unfold Processing._intro, Processing._outro, outro_records. run.
    rewrite <- !app_assoc. reflexivity.
  - apply quiet_app; [done|]. by repeat constructor.
Qed.

Lemma process_without_source_witness :
  ∃ evs,
    Processing.process Sample.W {["-MAT_DIR-" := "out"]} Sample.st0
    = (Returns PyNone, State (files Sample.st0) (trace Sample.st0 ++ evs))
    ∧ quiet evs.
Proof.
  exact (process_without_source Sample.W {["-MAT_DIR-" := "out"]} Sample.st0
           eq_refl).
Defined.

Lemma process_loop_without_destination (W : world) (path_input : option string)
    (total idx : nat) (l : list string) (st : state) :
  ∃ evs,
    Processing.process_loop W ".npy" path_input None total idx l st
    = (if existsb (λ f, Py.endswith f ".npy") l
       then Raises type_error_none else Returns (),
       State (files st) (trace st ++ evs))
    ∧ quiet evs.
Proof.
  revert idx st. induction l as [|f l IH]; intros idx st.
  - exists []. split; [|constructor]. destruct st. simpl. by rewrite app_nil_r.
  - rewrite process_loop_cons. simpl.
    destruct (Py.endswith f ".npy") eqn:Hf; simpl.
    + rewrite process_file_no_directory by auto.
      eexists. split; [done|]. by repeat constructor.
    + rewrite process_file_invalid by done.
      destruct (IH (S idx)
                  (State (files st)
                     (trace st ++ [processing_record total idx f;
                                   invalid_type_record; dashes_record])))
        as (evs & -> & Hq).
      exists ([processing_record total idx f; invalid_type_record;
               dashes_record] ++ evs).
      simpl. rewrite <- app_assoc. split; [done|].
      apply (quiet_app [_; _; _] evs); [|done]. by repeat constructor.
Qed.

(** X4.  When [values] has no "-MAT_DIR-", [process] raises [TypeError] at
    the first listed name that ends in ".npy", before the loader is called
    for it; names of another type are skipped as usual, and a batch without
    any ".npy" name completes.  No file is touched. *)
Theorem process_without_destination (W : world) (values : gmap string string)
    (src : string) (st : state) :
  values !! "-NPY_DIR-" = Some src →
  values !! "-MAT_DIR-" = None →
  ∃ evs,
    Processing.process W values st
    = (if existsb (λ f, Py.endswith f ".npy") (listed W src)
       then Raises type_error_none else Returns PyNone,
       State (files st) (trace st ++ evs))
    ∧ quiet evs.
Proof.
  intros Hsrc Hdst.
  destruct (utils_filenames_in_dir_effect W (Some src)) as (evs0 & Hq & Hlist).
  simpl in Hlist.
  unfold Processing.process, mbind, M_bind, bind. rewrite Hsrc, Hdst, Hlist.
  unfold Processing._intro. run.
  match goal with
  | |- context [Processing.process_loop _ _ _ _ _ _ _ ?s] =>
      destruct (process_loop_without_destination W (Some src)
                  (length (listed W src)) 0 (listed W src) s)
        as (evs & Hloop & Hq2)
  end.
  rewrite Hloop.
  destruct (existsb (λ f, Py.endswith f ".npy") (listed W src)); simpl.
  - exists (evs0 ++ [Log INFO "Valid file type is .npy";
                     Log INFO "Iterating over files..."; dashes_record] ++ evs).
    split; [rewrite <- !app_assoc; reflexivity|]. quiet_tac.
  - exists (evs0 ++ [Log INFO "Valid file type is .npy";
                     Log INFO "Iterating over files..."; dashes_record] ++ evs
                 ++ outro_records None).
    unfold Processing._outro, outro_records. run.
    split; [rewrite <- !app_assoc; reflexivity|]. quiet_tac.
Qed.

Lemma process_without_destination_witness :
  ∃ evs,
    Processing.process Sample.W {["-NPY_DIR-" := "in"]} Sample.st0
    = (Raises type_error_none,
       State (files Sample.st0) (trace Sample.st0 ++ evs))
    ∧ quiet evs.
Proof.
  exact (process_without_destination Sample.W {["-NPY_DIR-" := "in"]} "in"
           Sample.st0 eq_refl eq_refl).
Defined.

(** ** The calls out of the repository *)

Lemma quiet_filter (evs : list event) :
  quiet evs → List.filter calls_outside evs = [].
Proof.
  unfold quiet. induction 1 as [|ev evs Hev _ IH]; [done|].
  simpl. by rewrite Hev.
Qed.

Lemma process_file_calls (W : world) (src dst : string) (total idx : nat)
    (f : string) (st : state) :
  loader_returns W → loader_quiet W →
  ∃ fs evs,
    Processing.process_file W ".npy" (Some src) (Some dst) total idx f st
    = (Returns (), State fs (trace st ++ evs))
    ∧ List.filter calls_outside evs = process_calls W src dst f.
Proof.
  intros Hret Hquiet. unfold process_calls.
  destruct (Py.endswith f ".npy") eqn:Hf.
  2:{ rewrite process_file_invalid by done. by eexists _, _. }
  rewrite process_file_valid by done. simpl.
  destruct (Hret (join_str src f)) as [v Hv]. rewrite Hv.
  pose proof (quiet_filter _ (Hquiet (join_str src f))) as Hloader.
  destruct v as [|a|r].
  - rewrite save_data_as_mat_other by done. simpl.
    rewrite <- !app_assoc. eexists _, _. split; [done|].
    rewrite !List.filter_app.
    unfold processing_record, valid_type_record, not_an_array_record,
      dashes_record. simpl. by rewrite Hloader.
  - rewrite save_data_as_mat_array. simpl. rewrite <- !app_assoc.
    eexists _, _. split; [done|].
    rewrite !List.filter_app.
    unfold processing_record, valid_type_record, dashes_record. simpl.
    rewrite Hloader. by destruct (writer W _ _).
  - rewrite save_data_as_mat_other by done. simpl.
    rewrite <- !app_assoc. eexists _, _. split; [done|].
    rewrite !List.filter_app.
    unfold processing_record, valid_type_record, not_an_array_record,
      dashes_record. simpl. by rewrite Hloader.
Qed.

(** X5.  With a loader that returns and makes no recorded call of its own,
    the loop of [process] returns, and its calls out of the repository are,
    name by name in the order of the listing: nothing for a name of another
    type; the loader, once, for a name that ends in ".npy"; and [savemat]
    right after it exactly when the loader returned an array, with the one
    entry "data" holding that array. *)
Theorem process_loop_calls (W : world) (src dst : string) (total idx : nat)
    (l : list string) (st : state) :
  loader_returns W → loader_quiet W →
  ∃ fs evs,
    Processing.process_loop W ".npy" (Some src) (Some dst) total idx l st
    = (Returns (), State fs (trace st ++ evs))
    ∧ List.filter calls_outside evs = flat_map (process_calls W src dst) l.
Proof.
  intros Hret Hquiet. revert idx st. induction l as [|f l IH]; intros idx st.
  - exists (files st), []. destruct st. simpl. by rewrite app_nil_r.
  - rewrite process_loop_cons.
    destruct (process_file_calls W src dst total idx f st Hret Hquiet)
      as (fs1 & evs1 & -> & Hc1).
    destruct (IH (S idx) (State fs1 (trace st ++ evs1)))
      as (fs2 & evs2 & -> & Hc2).
    exists fs2, (evs1 ++ evs2). simpl. rewrite <- app_assoc. split; [done|].
    by rewrite List.filter_app, Hc1, Hc2.
Qed.

Lemma sample_loader_quiet : loader_quiet Sample.W.
Proof.
  intros path. unfold Sample.W. simpl.
  destruct (bool_decide (path = "in/a.npy")); by repeat constructor.
Qed.

Lemma process_loop_calls_witness :
  ∃ fs evs,
    Processing.process_loop Sample.W ".npy" (Some "in") (Some "out") 3 0
      ["a.npy"; "b.txt"; "c.npy"] Sample.st0
    = (Returns (), State fs (trace Sample.st0 ++ evs))
    ∧ List.filter calls_outside evs
      = [LoadFile "in/a.npy";
         Savemat "out/a.mat" (data_entry (PyNdarray Sample.arr));
         LoadFile "in/c.npy"].
Proof.
  exact (process_loop_calls Sample.W "in" "out" 3 0 ["a.npy"; "b.txt"; "c.npy"]
           Sample.st0 sample_loader_returns sample_loader_quiet).
Defined.

Lemma convert_file_calls (W : world) (src dst : string) (f : string)
    (st : state) :
  ∃ fs evs,
    Npy2Mat.convert_file W (Some src) (Some dst) f st
    = (Returns (), State fs (trace st ++ evs))
    ∧ List.filter calls_outside evs = convert_calls W src dst f.
Proof.
  rewrite convert_file_run, convert_npy_to_mat_run. unfold convert_calls.
  destruct (np_load W (join_str src f)) as [v|e].
  - simpl. eexists _, _. split; [done|]. simpl.
    by destruct (writer W _ _).
  - by eexists _, _.
Qed.

(** X6.  The loop of [convert_files] loads every name once, in the order
    given, and calls [savemat] right after a load exactly when [np.load]
    returned, with the one entry "data" holding whatever was loaded (there
    is no check that it is an array); it makes no other call. *)
Theorem convert_loop_calls (W : world) (src dst : string) (l : list string)
    (st : state) :
  ∃ fs evs,
    Npy2Mat.convert_loop W l (Some src) (Some dst) st
    = (Returns (), State fs (trace st ++ evs))
    ∧ List.filter calls_outside evs = flat_map (convert_calls W src dst) l.
Proof.
  revert st. induction l as [|f l IH]; intros st.
  - exists (files st), []. destruct st. simpl. by rewrite app_nil_r.
  - rewrite convert_loop_cons.
    destruct (convert_file_calls W src dst f st) as (fs1 & evs1 & -> & Hc1).
    simpl.
    destruct (IH (State fs1 (trace st ++ evs1))) as (fs2 & evs2 & -> & Hc2).
    exists fs2, (evs1 ++ evs2). simpl. rewrite <- app_assoc. split; [done|].
    by rewrite List.filter_app, Hc1, Hc2.
Qed.

(** ** [handle_conversions] of npy2mat.py *)

Lemma check_each_forallb (l : list string) (target_type : string) :
  Npy2Mat.check_each l target_type
  = forallb (λ f, Py.endswith f target_type) l.
Proof.
  induction l as [|f l IH]; simpl; [done|].
  rewrite IH. by destruct (Py.endswith f target_type).
Qed.

Lemma validate_file_types_run (l : list string) (st : state) :
  Npy2Mat.validate_file_types l ".npy" st
  = if forallb (λ f, Py.endswith f ".npy") l
    then (Returns true,
          State (files st)
            (trace st ++ [Log INFO ("Found " +:+ Py.str_of_nat (length l)
                                    +:+ " files to convert")]))
    else (Returns false, st).
Proof.
  unfold Npy2Mat.validate_file_types. simpl. rewrite check_each_forallb.
  by destruct (forallb _ l).
Qed.

Lemma convert_file_effect (W : world) (npy_dir mat_dir : option string)
    (f : string) :
  ∃ (r : outcome unit) (D : gmap string artifact) (evs : list event),
    (∀ st, Npy2Mat.convert_file W npy_dir mat_dir f st
           = (r, State (D ∪ files st) (trace st ++ evs)))
    ∧ (∀ p, is_Some (D !! p) → converted_to mat_dir [f] p)
    ∧ (npy_dir = None ∨ mat_dir = None →
       r = Raises type_error_none ∧ quiet evs ∧ D = ∅).
Proof.
  destruct mat_dir as [dst|].
  2:{ exists (Raises type_error_none), ∅, []. split; [|split].
      - intros [fs tr]. unfold Npy2Mat.convert_file. run.
        by rewrite (left_id_L ∅ (∪)), app_nil_r.
      - intros p [a Ha]. by rewrite lookup_empty in Ha.
      - intros _. repeat split. constructor. }
  destruct npy_dir as [src|].
  2:{ exists (Raises type_error_none), ∅, []. split; [|split].
      - intros [fs tr]. unfold Npy2Mat.convert_file. run.
        by rewrite (left_id_L ∅ (∪)), app_nil_r.
      - intros p [a Ha]. by rewrite lookup_empty in Ha.
      - intros _. repeat split. constructor. }
  assert (∀ p : string,
            p = join_str dst ((splitext f).1 +:+ ".mat") →
            converted_to (Some dst) [f] p) as Hdest.
  { intros p ->. exists dst, f. repeat split. apply list_elem_of_here. }
  destruct (np_load W (join_str src f)) as [v|e] eqn:Hload.
  2:{ eexists (Returns ()), ∅, _. split; [|split].
      - intros st. rewrite convert_file_run, convert_npy_to_mat_run, Hload.
        by rewrite (left_id_L ∅ (∪)).
      - intros p [a Ha]. by rewrite lookup_empty in Ha.
      - by intros [|]. }
  destruct (writer W (join_str dst ((splitext f).1 +:+ ".mat")) (data_entry v))
    as [|e|e] eqn:Hw.
  - eexists (Returns ()),
      {[join_str dst ((splitext f).1 +:+ ".mat")
        := MatFile (stored_entries (data_entry v))]}, _.
    split; [|split].
    + intros st. rewrite convert_file_run, convert_npy_to_mat_run, Hload.
      simpl. rewrite savemat_target_join, Hw. simpl.
      by rewrite insert_union_singleton_l.
    + intros p [b Hb]. apply Hdest.
      apply lookup_singleton_Some in Hb. by destruct Hb.
    + by intros [|].
  - eexists (Returns ()), ∅, _. split; [|split].
    + intros st. rewrite convert_file_run, convert_npy_to_mat_run, Hload.
      simpl. rewrite savemat_target_join, Hw. simpl.
      by rewrite (left_id_L ∅ (∪)).
    + intros p [b Hb]. by rewrite lookup_empty in Hb.
    + by intros [|].
  - eexists (Returns ()),
      {[join_str dst ((splitext f).1 +:+ ".mat") := Truncated]}, _.
    split; [|split].
    + intros st. rewrite convert_file_run, convert_npy_to_mat_run, Hload.
      simpl. rewrite savemat_target_join, Hw. simpl.
      by rewrite insert_union_singleton_l.
    + intros p [b Hb]. apply Hdest.
      apply lookup_singleton_Some in Hb. by destruct Hb.
    + by intros [|].
Qed.

Lemma converted_to_cons (dst : option string) (f : string) (l : list string)
    (p : string) :
  converted_to dst [f] p ∨ converted_to dst l p → converted_to dst (f :: l) p.
Proof.
  intros [(d & g & -> & Hg & ->)|(d & g & -> & Hg & ->)];
    exists d, g; repeat split; try done.
  - apply list_elem_of_singleton in Hg as ->. apply list_elem_of_here.
  - by apply list_elem_of_further.
Qed.

Lemma convert_loop_effect (W : world) (npy_dir mat_dir : option string)
    (l : list string) :
  ∃ (r : outcome unit) (D : gmap string artifact) (evs : list event),
    (∀ st, Npy2Mat.convert_loop W l npy_dir mat_dir st
           = (r, State (D ∪ files st) (trace st ++ evs)))
    ∧ (∀ p, is_Some (D !! p) → converted_to mat_dir l p)
    ∧ (npy_dir = None ∨ mat_dir = None →
       D = ∅ ∧ quiet evs
       ∧ r = match l with [] => Returns () | _ => Raises type_error_none end).
Proof.
  induction l as [|f l IH].
  - exists (Returns ()), ∅, []. split; [|split].
    + intros [fs tr]. simpl. by rewrite (left_id_L ∅ (∪)), app_nil_r.
    + intros p [a Ha]. by rewrite lookup_empty in Ha.
    + intros _. repeat split. constructor.
  - destruct (convert_file_effect W npy_dir mat_dir f)
      as (r1 & D1 & evs1 & Hrun1 & Hdom1 & Hnone1).
    destruct r1 as [[]|e].
    + destruct IH as (r2 & D2 & evs2 & Hrun2 & Hdom2 & Hnone2).
      exists r2, (D2 ∪ D1), (evs1 ++ evs2). split; [|split].
      * intros st. simpl. unfold mbind, M_bind, bind.
        rewrite Hrun1, Hrun2. simpl. by rewrite (assoc_L (∪)), app_assoc.
      * intros p Hp. apply converted_to_cons.
        apply lookup_union_is_Some in Hp as [Hp|Hp]; auto.
      * intros Hnone. by destruct (Hnone1 Hnone).
    + exists (Raises e), D1, evs1. split; [|split].
      * intros st. simpl. unfold mbind, M_bind, bind. by rewrite Hrun1.
      * intros p Hp. apply converted_to_cons. auto.
      * intros Hnone. by destruct (Hnone1 Hnone) as ([= ->] & Hq & ->).
Qed.

Lemma handle_conversions_run (W : world) (values : gmap string string) :
  ∃ evs0,
    quiet evs0
    ∧ (∀ src e, values !! "-NPY_DIR-" = Some src →
                os_listdir W (Some src) = Raises e →
                evs0 = [Popup ["Error reading directory"; exn_msg e] None;
                        Log ERROR ("Error reading directory: " +:+ exn_msg e)])
    ∧ ∀ st,
        let names := from_option (listed W) [] (values !! "-NPY_DIR-") in
        Npy2Mat.handle_conversions W values st
        = if forallb (λ f, Py.endswith f ".npy") names then
            match Npy2Mat.convert_loop W names (values !! "-NPY_DIR-")
                    (values !! "-MAT_DIR-")
                    (State (files st)
                       (trace st ++ evs0 ++
                        [Log INFO ("Found " +:+ Py.str_of_nat (length names)
                                   +:+ " files to convert")])) with
            | (Returns _, st2) =>
                (Returns (),
                 State (files st2)
                   (trace st2 ++ [Popup ["Conversion successful!"] None]))
            | (Raises e, st2) => (Raises e, st2)
            end
          else
            (Returns (),
             State (files st)
               (trace st ++ evs0 ++
                [Popup ["Invalid file type: .npy files required"] (Some "Error");
                 Log WARNING "Invalid file type: .npy files required"])).
Proof.
  destruct (npy2mat_filenames_in_dir_effect W (values !! "-NPY_DIR-"))
    as (evs0 & Hq & Hlist).
  exists evs0. split; [done|]. split.
  - intros src e Hsrc He. specialize (Hlist (State ∅ [])).
    rewrite Hsrc in Hlist. unfold Npy2Mat.filenames_in_dir in Hlist.
    revert Hlist. run. rewrite He. simpl. by intros [= _ <-].
  - intros st names.
    unfold Npy2Mat.handle_conversions, Npy2Mat.get_directories,
      mbind, M_bind, bind.
    rewrite Hlist. fold names. rewrite validate_file_types_run. simpl.
    destruct (forallb (λ f, Py.endswith f ".npy") names).
    + unfold Npy2Mat.convert_files, mbind, M_bind, bind.
      rewrite <- !app_assoc.
      by destruct (Npy2Mat.convert_loop W names _ _ _) as [[[]|e] st2].
    + unfold Npy2Mat.show_invalid_file_type_error. run.
      by rewrite <- !app_assoc.
Qed.

(** X7.  [handle_conversions] converts all or nothing: when a listed name
    does not end in ".npy", no file of the batch is loaded or written, the
    ".npy" names included; the user gets the invalid-type popup and the
    warning record, and the call returns. *)
Theorem handle_conversions_all_or_nothing (W : world)
    (values : gmap string string) (src f : string) (st : state) :
  values !! "-NPY_DIR-" = Some src →
  f ∈ listed W src →
  Py.endswith f ".npy" = false →
  ∃ evs,
    Npy2Mat.handle_conversions W values st
    = (Returns (),
       State (files st)
         (trace st ++ evs ++
          [Popup ["Invalid file type: .npy files required"] (Some "Error");
           Log WARNING "Invalid file type: .npy files required"]))
    ∧ quiet evs.
Proof.
  intros Hsrc Hin Hf.
  destruct (handle_conversions_run W values) as (evs0 & Hq & _ & Hrun).
  exists evs0. split; [|done]. rewrite Hrun, Hsrc. simpl.
  assert (forallb (λ f, Py.endswith f ".npy") (listed W src) = false) as ->;
    [|done].
  apply not_true_is_false. intros Hall.
  rewrite forallb_forall in Hall.
  apply list_elem_of_In in Hin. specialize (Hall f Hin). congruence.
Qed.

Lemma handle_conversions_all_or_nothing_witness :
  ∃ evs,
    Npy2Mat.handle_conversions Sample.W (Sample.values "in" "out") Sample.st0
    = (Returns (),
       State (files Sample.st0)
         (trace Sample.st0 ++ evs ++
          [Popup ["Invalid file type: .npy files required"] (Some "Error");
           Log WARNING "Invalid file type: .npy files required"]))
    ∧ quiet evs.
Proof.
  apply (handle_conversions_all_or_nothing Sample.W (Sample.values "in" "out")
           "in" "b.txt" Sample.st0 eq_refl); [|reflexivity].
  change (listed Sample.W "in") with ["a.npy"; "b.txt"; "c.npy"].
  apply list_elem_of_further, list_elem_of_here.
Defined.

(** X8.  When both directories are given and every listed name ends in
    ".npy", [handle_conversions] returns and its last act is the popup
    "Conversion successful!", whatever happened to the files: conversions
    that failed are reported one by one before it, and after an error
    reading the directory the error popup and the record of zero files are
    all that comes before it. *)
Theorem handle_conversions_reports_success (W : world)
    (values : gmap string string) (src dst : string) (st : state) :
  values !! "-NPY_DIR-" = Some src →
  values !! "-MAT_DIR-" = Some dst →
  forallb (λ f, Py.endswith f ".npy") (listed W src) = true →
  ∃ fs evs,
    Npy2Mat.handle_conversions W values st
    = (Returns (),
       State fs (trace st ++ evs ++ [Popup ["Conversion successful!"] None]))
    ∧ (∀ e, os_listdir W (Some src) = Raises e →
         fs = files st
         ∧ evs = [Popup ["Error reading directory"; exn_msg e] None;
                  Log ERROR ("Error reading directory: " +:+ exn_msg e);
                  Log INFO "Found 0 files to convert"]).
Proof.
  intros Hsrc Hdst Hall.
  destruct (handle_conversions_run W values) as (evs0 & Hq & Herr & Hrun).
  rewrite Hrun, Hsrc, Hdst. simpl. rewrite Hall.
  match goal with
  | |- context [Npy2Mat.convert_loop _ _ _ _ ?s] =>
      destruct (convert_loop_returns W src dst (listed W src) s)
        as (fs & evs & Hloop & _)
  end.
  rewrite Hloop. simpl in *.
  exists fs, (evs0 ++ [Log INFO ("Found " +:+ Py.str_of_nat (length (listed W src))
                                 +:+ " files to convert")] ++ evs).
  split; [by rewrite <- !app_assoc|].
  intros e He. rewrite (Herr src e Hsrc He) in *.
  revert Hloop. unfold listed. rewrite He. simpl.
  intros [= <- Htr]. split; [done|].
  assert (evs = []) as ->.
  { apply (app_inv_head (trace st ++
      [Popup ["Error reading directory"; exn_msg e] None;
       Log ERROR ("Error reading directory: " +:+ exn_msg e);
       Log INFO ("Found " +:+ Py.str_of_nat 0 +:+ " files to convert")])).
    by rewrite app_nil_r. }
  reflexivity.
Qed.

Lemma handle_conversions_reports_success_witness :
  ∃ fs evs,
    Npy2Mat.handle_conversions Sample.W (Sample.values "nowhere" "out")
      Sample.st0
    = (Returns (),
       State fs (trace Sample.st0 ++ evs
                 ++ [Popup ["Conversion successful!"] None])).
Proof.
  destruct (handle_conversions_reports_success Sample.W
              (Sample.values "nowhere" "out") "nowhere" "out" Sample.st0
              eq_refl eq_refl eq_refl) as (fs & evs & Hrun & _).
  by exists fs, evs.
Defined.

(** X9.  When [values] has no "-MAT_DIR-" and every listed name ends in
    ".npy", [handle_conversions] raises [TypeError] at the first name,
    before anything is loaded; with no name listed it returns.  No file is
    touched. *)
Theorem handle_conversions_without_destination (W : world)
    (values : gmap string string) (src : string) (st : state) :
  values !! "-NPY_DIR-" = Some src →
  values !! "-MAT_DIR-" = None →
  forallb (λ f, Py.endswith f ".npy") (listed W src) = true →
  ∃ evs,
    Npy2Mat.handle_conversions W values st
    = (match listed W src with
       | [] => Returns ()
       | _ :: _ => Raises type_error_none
       end,
       State (files st) (trace st ++ evs))
    ∧ quiet evs.
Proof.
  intros Hsrc Hdst Hall.
  destruct (handle_conversions_run W values) as (evs0 & Hq & _ & Hrun).
  rewrite Hrun, Hsrc, Hdst. simpl. rewrite Hall.
  destruct (convert_loop_effect W (Some src) None (listed W src))
    as (r & D & evs & Hloop & _ & Hnone).
  destruct Hnone as (-> & Hq2 & ->); [by right|].
  rewrite Hloop. simpl. rewrite (left_id_L ∅ (∪)).
  destruct (listed W src) as [|f l].
  - eexists. split; [by rewrite <- !app_assoc|]. quiet_tac.
  - eexists. split; [by rewrite <- !app_assoc|]. quiet_tac.
Qed.

Lemma handle_conversions_without_destination_witness :
  ∃ evs,
    Npy2Mat.handle_conversions Sample.W {["-NPY_DIR-" := "nowhere"]} Sample.st0
    = (Returns (), State (files Sample.st0) (trace Sample.st0 ++ evs))
    ∧ quiet evs.
Proof.
  exact (handle_conversions_without_destination Sample.W
           {["-NPY_DIR-" := "nowhere"]} "nowhere" Sample.st0
           eq_refl eq_refl eq_refl).
Defined.

Lemma handle_conversions_effect (W : world) (values : gmap string string) :
  ∃ (r : outcome unit) (D : gmap string artifact) (evs : list event),
    (∀ st, Npy2Mat.handle_conversions W values st
           = (r, State (D ∪ files st) (trace st ++ evs)))
    ∧ (∀ p, is_Some (D !! p) →
         converted_to (values !! "-MAT_DIR-")
           (from_option (listed W) [] (values !! "-NPY_DIR-")) p).
Proof.
  destruct (handle_conversions_run W values) as (evs0 & _ & _ & Hrun).
  set (names := from_option (listed W) [] (values !! "-NPY_DIR-")) in *.
  destruct (forallb (λ f, Py.endswith f ".npy") names) eqn:Hall.
  - destruct (convert_loop_effect W (values !! "-NPY_DIR-")
                (values !! "-MAT_DIR-") names)
      as (r & D & evs & Hloop & Hdom & _).
    destruct r as [[]|e].
    + exists (Returns ()), D,
        (evs0 ++ [Log INFO ("Found " +:+ Py.str_of_nat (length names)
                            +:+ " files to convert")]
              ++ evs ++ [Popup ["Conversion successful!"] None]).
      split; [|done]. intros st. rewrite Hrun. simpl. rewrite Hall, Hloop.
      simpl. by rewrite <- !app_assoc.
    + exists (Raises e), D,
        (evs0 ++ [Log INFO ("Found " +:+ Py.str_of_nat (length names)
                            +:+ " files to convert")] ++ evs).
      split; [|done]. intros st. rewrite Hrun. simpl. rewrite Hall, Hloop.
      simpl. by rewrite <- !app_assoc.
  - exists (Returns ()), ∅,
      (evs0 ++ [Popup ["Invalid file type: .npy files required"] (Some "Error");
                Log WARNING "Invalid file type: .npy files required"]).
    split.
    + intros st. rewrite Hrun. simpl. rewrite Hall.
      by rewrite (left_id_L ∅ (∪)).
    + intros p [a Ha]. by rewrite lookup_empty in Ha.
Qed.

(** X10.  [handle_conversions] changes no path other than the destinations
    of the listed names, and running it again on the state it left gives
    the same outcome and the same files: nothing accumulates from one run
    to the next. *)
Theorem handle_conversions_rerun (W : world) (values : gmap string string)
    (st : state) :
  (∀ p, ¬ converted_to (values !! "-MAT_DIR-")
            (from_option (listed W) [] (values !! "-NPY_DIR-")) p →
        files (Npy2Mat.handle_conversions W values st).2 !! p = files st !! p)
  ∧ (Npy2Mat.handle_conversions W values
       (Npy2Mat.handle_conversions W values st).2).1
    = (Npy2Mat.handle_conversions W values st).1
  ∧ files (Npy2Mat.handle_conversions W values
             (Npy2Mat.handle_conversions W values st).2).2
    = files (Npy2Mat.handle_conversions W values st).2.
Proof.
  destruct (handle_conversions_effect W values) as (r & D & evs & Hrun & Hdom).
  rewrite !Hrun. simpl. split; [|split; [done|]].
  - intros p Hp. destruct (D !! p) as [a|] eqn:HD.
    + destruct Hp. apply Hdom. by exists a.
    + by rewrite lookup_union_r.
  - by rewrite (assoc_L (∪)), (idemp_L (∪)).
Qed.

Lemma sample_not_converted_to :
  ¬ converted_to (Some "out") (listed Sample.W "in") "in/a.npy".
Proof.
  intros (d & f & [= <-] & Hf & Heq).
  change (listed Sample.W "in") with ["a.npy"; "b.txt"; "c.npy"] in Hf.
  repeat (apply elem_of_cons in Hf as [->|Hf]; [by vm_compute in Heq|]).
  by apply elem_of_nil in Hf.
Qed.

Lemma handle_conversions_rerun_witness :
  files (Npy2Mat.handle_conversions Sample.W (Sample.values "in" "out")
           Sample.st0).2 !! "in/a.npy" = files Sample.st0 !! "in/a.npy".
Proof.
  exact (proj1 (handle_conversions_rerun Sample.W (Sample.values "in" "out")
                  Sample.st0) "in/a.npy" sample_not_converted_to).
Defined.

(** ** Names and destinations *)

Lemma append_inv_head (a b c : string) : a +:+ b = a +:+ c → b = c.
Proof.
  induction a as [|x a IH]; [done|].
  change (String x (a +:+ b) = String x (a +:+ c) → b = c).
  intros [= H]. by apply IH.
Qed.

Lemma append_inv_tail (p q t : string) : p +:+ t = q +:+ t → p = q.
Proof.
  intros Heq.
  assert (String.length p = String.length q) as Hlen.
  { apply (f_equal String.length) in Heq. rewrite !length_append in Heq. lia. }
  revert q Hlen Heq. induction p as [|c p IH]; intros [|d q] Hlen Heq;
    simpl in *; try done.
  change (String c (p +:+ t) = String d (q +:+ t)) in Heq.
  injection Heq as -> Heq. f_equal. apply IH; [lia|done].
Qed.

Lemma splitext_npy_root (stem : string) :
  has_char "/" stem = false → has_nondot stem = true →
  (splitext (stem +:+ ".npy")).1 = stem.
Proof.
  intros Hs Hn. rewrite splitext_root.
  by apply (strip_extension_of stem "npy").
Qed.

Lemma join_str_inj (dst b1 b2 : string) :
  Py.startswith b1 "/" = false → Py.startswith b2 "/" = false →
  join_str dst b1 = join_str dst b2 → b1 = b2.
Proof.
  unfold join_str. intros -> ->.
  destruct (bool_decide (dst = "") || Py.endswith dst "/").
  - apply append_inv_head.
  - intros H%append_inv_head. by apply (append_inv_head "/").
Qed.

(** X11.  Two names stem.npy whose stems have no separator and have a
    character other than the dot get the same destination path from
    [_gen_filepaths] only if they are the same name: within a batch, such
    files never overwrite each other's output. *)
Theorem gen_filepaths_injective (src dst stem1 stem2 : string)
    (npy1 npy2 mat : string) :
  has_char "/" stem1 = false → has_nondot stem1 = true →
  has_char "/" stem2 = false → has_nondot stem2 = true →
  Processing._gen_filepaths (Some src) (stem1 +:+ ".npy") (Some dst)
    = Returns (npy1, mat) →
  Processing._gen_filepaths (Some src) (stem2 +:+ ".npy") (Some dst)
    = Returns (npy2, mat) →
  stem1 = stem2.
Proof.
  intros Hs1 Hn1 Hs2 Hn2. unfold Processing._gen_filepaths. simpl.
  rewrite !splitext_npy_root by done.
  intros [= _ <-] [= _ Heq].
  apply join_str_inj in Heq; [|by apply startswith_sep_no_sep..].
  by apply append_inv_tail in Heq.
Qed.

Lemma gen_filepaths_injective_witness : "a" = "a".
Proof.
  exact (gen_filepaths_injective "in" "out" "a" "a" "in/a.npy" "in/a.npy"
           "out/a.mat" eq_refl eq_refl eq_refl eq_refl eq_refl eq_refl).
Defined.

(** X12.  The proviso of X11 is needed: for a stem made of dots only (the
    empty stem included), the names stem.npy and stem.npy.npy both pass the
    type check and get one and the same destination path, so the later of
    the two conversions overwrites the earlier. *)
Theorem gen_filepaths_collision (src dst dots : string) :
  has_char "/" dots = false → has_nondot dots = false →
  Py.endswith (dots +:+ ".npy") ".npy" = true
  ∧ Py.endswith (dots +:+ ".npy.npy") ".npy" = true
  ∧ dots +:+ ".npy" ≠ dots +:+ ".npy.npy"
  ∧ Processing._gen_filepaths (Some src) (dots +:+ ".npy") (Some dst)
    = Returns (join_str src (dots +:+ ".npy"),
               join_str dst (dots +:+ ".npy.mat"))
  ∧ Processing._gen_filepaths (Some src) (dots +:+ ".npy.npy") (Some dst)
    = Returns (join_str src (dots +:+ ".npy.npy"),
               join_str dst (dots +:+ ".npy.mat")).
Proof.
  intros Hs Hn.
  assert ((splitext (dots +:+ ".npy")).1 = dots +:+ ".npy") as H1.
  { rewrite splitext_root. unfold strip_extension.
    rewrite strip_from_prefix by done.
    by rewrite seen_after_component, Hn by done. }
  assert ((splitext (dots +:+ ".npy.npy")).1 = dots +:+ ".npy") as H2.
  { rewrite splitext_root.
    replace (dots +:+ ".npy.npy") with ((dots +:+ ".npy") +:+ ".npy")
      by by rewrite append_assoc.
    apply (strip_extension_of (dots +:+ ".npy") "npy"); try done.
    - by rewrite has_char_append, Hs.
    - clear. induction dots as [|c dots IH]; [done|].
      change (has_nondot (String c (dots +:+ ".npy")) = true).
      simpl. by rewrite IH, orb_true_r. }
  split; [apply endswith_iff; by exists dots|].
  split; [apply endswith_iff; exists (dots +:+ ".npy"); by rewrite append_assoc|].
  split.
  { intros Heq%append_inv_head. discriminate. }
  unfold Processing._gen_filepaths. simpl. rewrite H1, H2.
  by rewrite append_assoc.
Qed.

Lemma gen_filepaths_collision_witness :
  Processing._gen_filepaths (Some "in") ".npy" (Some "out")
  = Returns ("in/.npy", "out/.npy.mat")
  ∧ Processing._gen_filepaths (Some "in") ".npy.npy" (Some "out")
    = Returns ("in/.npy.npy", "out/.npy.mat").
Proof.
  exact (proj2 (proj2 (proj2
    (gen_filepaths_collision "in" "out" "" eq_refl eq_refl)))).
Defined.

Lemma splitext_parts (p : string) :
  (splitext p).1 +:+ (splitext p).2 = p
  ∧ ((splitext p).2 = ""
     ∨ ∃ e, (splitext p).2 = String "." e
            ∧ has_char "." e = false ∧ has_char "/" e = false).
Proof.
  unfold splitext.
  destruct (bool_decide (Py.rfind p "." > Py.rfind p "/")%Z) eqn:Hgt;
    [|split; [apply append_empty_r | by left]].
  destruct (splitext_scan _ _ _ _); [|split; [apply append_empty_r | by left]].
  apply bool_decide_eq_true in Hgt. unfold Py.rfind in *.
  destruct (Py.rfind_nat "." p) as [i|] eqn:Hdot.
  2:{ destruct (Py.rfind_nat "/" p); lia. }
  destruct (rfind_nat_some _ _ _ Hdot) as (a & e & -> & <- & He).
  rewrite Nat2Z.id. simpl.
  assert (Py.slice_to (String.length a) (a +:+ String "." e) = a) as ->
    by apply substring_prefix.
  assert (Py.slice_from (String.length a) (a +:+ String "." e) = String "." e)
    as ->.
  { unfold Py.slice_from, Py.len. rewrite length_append.
    replace (String.length a + String.length (String "." e) - String.length a)
      with (String.length (String "." e)) by lia.
    by rewrite substring_skip, substring_all. }
  split; [done|]. right. exists e. repeat split; [done|].
  destruct (has_char "/" e) eqn:Hsep; [|done].
  destruct (rfind_nat_behind "/" "." a e Hsep) as (j & Hj & Hlt).
  rewrite Hj in Hgt. lia.
Qed.

(** X13.  [_gen_filepaths] changes nothing of a name but its extension: the
    name is a root followed by an extension that is empty or is a dot
    followed by characters that are neither dots nor separators, the source
    path is the source directory joined with the whole name, and the
    destination path is the destination directory joined with that root and
    ".mat". *)
Theorem gen_filepaths_keeps_root (src dst filename : string) :
  ∃ root ext,
    filename = root +:+ ext
    ∧ (ext = ""
       ∨ ∃ e, ext = String "." e
              ∧ has_char "." e = false ∧ has_char "/" e = false)
    ∧ Processing._gen_filepaths (Some src) filename (Some dst)
      = Returns (join_str src filename, join_str dst (root +:+ ".mat")).
Proof.
  destruct (splitext_parts filename) as [Hcat Hext].
  exists (splitext filename).1, (splitext filename).2.
  split; [done|]. by split.
Qed.

(** ** The event loops *)

Section WindowLoop.

Variable convert : gmap string string → M unit.

Lemma window_loop_cons_open (event : option string)
    (values : gmap string string) (rest : list window_read) (st : state) :
  is_close event = false →
  window_loop convert ((event, values) :: rest) st
  = match (if bool_decide (event = Some "Convert") then convert values
           else mret ()) st with
    | (Returns _, st1) =>
        match (if bool_decide (event = Some "Contact Info") then contact_info
               else mret ()) st1 with
        | (Returns _, st2) => window_loop convert rest st2
        | (Raises e, st2) => (Raises e, st2)
        end
    | (Raises e, st1) => (Raises e, st1)
    end.
Proof. intros Hc. simpl. rewrite Hc. reflexivity. Qed.

Lemma window_loop_close (pre post : list window_read) (event : option string)
    (values : gmap string string) (st : state) :
  is_close event = true →
  window_loop convert (pre ++ (event, values) :: post) st
  = window_loop convert (pre ++ [(event, values)]) st.
Proof.
  intros Hc. revert st. induction pre as [|[ev v] pre IH]; intros st.
  - simpl. by rewrite Hc.
  - change (((ev, v) :: pre) ++ (event, values) :: post)
      with ((ev, v) :: (pre ++ (event, values) :: post)).
    change (((ev, v) :: pre) ++ [(event, values)])
      with ((ev, v) :: (pre ++ [(event, values)])).
    destruct (is_close ev) eqn:Hev.
    + simpl. by rewrite Hev.
    + rewrite !window_loop_cons_open by done.
      destruct ((if bool_decide (ev = Some "Convert") then convert v
                 else mret ()) st) as [[[]|e] st1]; [|done].
      destruct ((if bool_decide (ev = Some "Contact Info") then contact_info
                 else mret ()) st1) as [[[]|e] st2]; [|done].
      apply IH.
Qed.

Lemma window_loop_closed (pre : list window_read) (event : option string)
    (values : gmap string string) (st : state) (r : loop_end) :
  is_close event = true →
  (window_loop convert (pre ++ [(event, values)]) st).1 = Returns r →
  r = WindowClosed.
Proof.
  intros Hc. revert st. induction pre as [|[ev v] pre IH]; intros st.
  - simpl. rewrite Hc. run. by intros [= <-].
  - change (((ev, v) :: pre) ++ [(event, values)])
      with ((ev, v) :: (pre ++ [(event, values)])).
    destruct (is_close ev) eqn:Hev.
    + simpl. rewrite Hev. run. by intros [= <-].
    + rewrite window_loop_cons_open by done.
      destruct ((if bool_decide (ev = Some "Convert") then convert v
                 else mret ()) st) as [[[]|e] st1]; [|done].
      destruct ((if bool_decide (ev = Some "Contact Info") then contact_info
                 else mret ()) st1) as [[[]|e] st2]; [|done].
      apply IH.
Qed.

Lemma window_loop_idle (reads : list window_read) (st : state) :
  forallb idle reads = true →
  window_loop convert reads st
  = (Returns Waiting,
     State (files st) (trace st ++ flat_map idle_events reads)).
Proof.
  revert st. induction reads as [|[ev v] reads IH]; intros st.
  - intros _. destruct st. simpl. by rewrite app_nil_r.
  - simpl. unfold idle at 1. simpl.
    intros [[Hc Hconv%negb_true_iff]%andb_prop Hrest]%andb_prop.
    apply negb_true_iff in Hc. rewrite Hc, Hconv.
    unfold idle_events at 1. simpl.
    unfold mbind, M_bind, bind, mret, M_ret, ret.
    destruct (bool_decide (ev = Some "Contact Info")).
    + unfold contact_info, popup, emit. rewrite IH by done. simpl.
      by rewrite <- app_assoc.
    + rewrite IH by done. done.
Qed.

Lemma window_loop_raises (pre post : list window_read)
    (values : gmap string string) (e : exn) (st : state) :
  (∀ st1, (convert values st1).1 = Raises e) →
  forallb idle pre = true →
  (window_loop convert (pre ++ (Some "Convert", values) :: post) st).1
  = Raises e.
Proof.
  intros Hraise. revert st. induction pre as [|[ev v] pre IH]; intros st.
  - intros _. simpl. unfold mbind, M_bind, bind.
    specialize (Hraise st). by destruct (convert values st) as [[[]|e'] st1];
      simpl in *; simplify_eq.
  - simpl. unfold idle at 1. simpl.
    intros [[Hc Hconv%negb_true_iff]%andb_prop Hrest]%andb_prop.
    apply negb_true_iff in Hc. rewrite Hc, Hconv.
    unfold mbind, M_bind, bind, mret, M_ret, ret.
    destruct (bool_decide (ev = Some "Contact Info")).
    + unfold contact_info, popup, emit. by apply IH.
    + by apply IH.
Qed.

End WindowLoop.

Lemma main_run_unfold (W : world) (reads : list window_read) (st : state) :
  Main.run W reads st
  = window_loop (λ values, Processing.process W values ;; mret ()) reads
      (State (files st) (trace st ++ [Log INFO "Starting application..."])).
Proof. done. Qed.

Lemma app_run_unfold (W : world) (reads : list window_read) (st : state) :
  Npy2MatApp.run W reads st
  = window_loop (Npy2Mat.handle_conversions W) reads
      (State (files st) (trace st ++ [Log INFO "Starting application..."])).
Proof. done. Qed.

(** X14.  Both [run]s stop at the first read that closes the window
    ([sg.WIN_CLOSED] or "Cancel"): whatever the script holds after it is
    never acted upon, and a run that returns from such a script has left the
    loop by [break]. *)
Theorem run_stops_at_close (W : world) (pre post : list window_read)
    (event : option string) (values : gmap string string) (st : state) :
  is_close event = true →
  Main.run W (pre ++ (event, values) :: post) st
  = Main.run W (pre ++ [(event, values)]) st
  ∧ Npy2MatApp.run W (pre ++ (event, values) :: post) st
    = Npy2MatApp.run W (pre ++ [(event, values)]) st
  ∧ (∀ r, (Main.run W (pre ++ (event, values) :: post) st).1 = Returns r →
          r = WindowClosed)
  ∧ (∀ r, (Npy2MatApp.run W (pre ++ (event, values) :: post) st).1 = Returns r →
          r = WindowClosed).
Proof.
  intros Hc. rewrite !main_run_unfold, !app_run_unfold.
  rewrite !(window_loop_close _ pre post) by done.
  repeat split; try done; intros r; by apply window_loop_closed.
Qed.

Lemma run_stops_at_close_witness :
  Main.run Sample.W
    ([(Some "Contact Info", ∅)] ++ (Some "Cancel", ∅)
       :: [(Some "Convert", Sample.values "in" "out")]) Sample.st0
  = Main.run Sample.W ([(Some "Contact Info", ∅)] ++ [(Some "Cancel", ∅)])
      Sample.st0.
Proof.
  exact (proj1 (run_stops_at_close Sample.W [(Some "Contact Info", ∅)]
                  [(Some "Convert", Sample.values "in" "out")]
                  (Some "Cancel") ∅ Sample.st0 eq_refl)).
Defined.

(** X15.  Reads that neither close the window nor ask for a conversion
    ("Contact Info", or any other event) leave the files as they were and
    make no call out of the repository: each "Contact Info" shows the
    contact popup, every other event does nothing, and the loop waits for
    the next read. *)
Theorem run_idle_reads (W : world) (reads : list window_read) (st : state) :
  forallb idle reads = true →
  Main.run W reads st
  = (Returns Waiting,
     State (files st)
       (trace st ++ Log INFO "Starting application..."
          :: flat_map idle_events reads))
  ∧ Npy2MatApp.run W reads st
    = (Returns Waiting,
       State (files st)
         (trace st ++ Log INFO "Starting application..."
            :: flat_map idle_events reads)).
Proof.
  intros Hidle. rewrite main_run_unfold, app_run_unfold.
  rewrite !window_loop_idle by done. simpl.
  by rewrite <- !app_assoc.
Qed.

Lemma run_idle_reads_witness :
  Main.run Sample.W [(Some "Contact Info", ∅); (Some "Browse", ∅)] Sample.st0
  = (Returns Waiting,
     State (files Sample.st0)
       (trace Sample.st0 ++ Log INFO "Starting application..."
          :: flat_map idle_events
               [(Some "Contact Info", ∅); (Some "Browse", ∅)])).
Proof.
  exact (proj1 (run_idle_reads Sample.W
                  [(Some "Contact Info", ∅); (Some "Browse", ∅)] Sample.st0
                  eq_refl)).
Defined.

(** X16.  Neither [run] handles an exception of the conversion: when
    [process] (main.py) or [handle_conversions] (npy2mat.py) raises for the
    values of a "Convert" read, [run] ends with that exception at that read,
    whatever state the run is in; the reads after it, a close among them,
    are not reached. *)
Theorem run_convert_raises (W : world) (pre post : list window_read)
    (values : gmap string string) (e : exn) (st st0 : state) :
  forallb idle pre = true →
  ((Processing.process W values st0).1 = Raises e →
   (Main.run W (pre ++ (Some "Convert", values) :: post) st).1 = Raises e)
  ∧ ((Npy2Mat.handle_conversions W values st0).1 = Raises e →
     (Npy2MatApp.run W (pre ++ (Some "Convert", values) :: post) st).1
     = Raises e).
Proof.
  intros Hidle. split; intros Hraise.
  - rewrite main_run_unfold. apply window_loop_raises; [|done].
    intros st1. destruct (process_effect W values) as (r & D & evs & Hrun & _).
    rewrite Hrun in Hraise. simpl in Hraise. subst r.
    unfold mbind, M_bind, bind. by rewrite Hrun.
  - rewrite app_run_unfold. apply window_loop_raises; [|done].
    intros st1.
    destruct (handle_conversions_effect W values) as (r & D & evs & Hrun & _).
    rewrite Hrun in Hraise. simpl in Hraise. subst r. by rewrite Hrun.
Qed.

Lemma sample_process_raises :
  (Processing.process Sample.W {["-NPY_DIR-" := "in"]} Sample.st0).1
  = Raises type_error_none.
Proof. vm_compute. reflexivity. Qed.

Lemma run_convert_raises_witness :
  (Main.run Sample.W
     ([(Some "Contact Info", ∅)] ++ (Some "Convert", {["-NPY_DIR-" := "in"]})
        :: [(Some "Cancel", ∅)]) Sample.st0).1
  = Raises type_error_none.
Proof.
  exact (proj1 (run_convert_raises Sample.W [(Some "Contact Info", ∅)]
                  [(Some "Cancel", ∅)] {["-NPY_DIR-" := "in"]} type_error_none
                  Sample.st0 Sample.st0 eq_refl) sample_process_raises).
Defined.

(** ** What a converted file holds *)



(** ** Edge cases of the type check *)

(** X18.  With an empty expected extension [validate_file_type] accepts
    every name, the empty name included; a name shorter than the expected
    extension is rejected; and a name that is the extension and nothing
    else is accepted. *)
Theorem validate_file_type_edges (filename target_type : string) (st : state) :
  (Utils.validate_file_type filename "" st).1 = Returns true
  ∧ (Utils.validate_file_type target_type target_type st).1 = Returns true
  ∧ (String.length filename < String.length target_type →
     (Utils.validate_file_type filename target_type st).1 = Returns false).
Proof.
  rewrite !validate_file_type_result. split; [|split].
  - f_equal. apply endswith_iff. exists filename. by rewrite append_empty_r.
  - f_equal. apply endswith_iff. by exists "".
  - intros Hlt. f_equal. unfold Py.endswith, Py.len.
    by destruct (Nat.ltb_spec (String.length filename)
                   (String.length target_type)); [|lia].
Qed.

Lemma validate_file_type_edges_witness :
  (Utils.validate_file_type "npy" ".npy" Sample.st0).1 = Returns false.
Proof.
  apply (proj2 (proj2 (validate_file_type_edges "npy" ".npy" Sample.st0))).
  simpl. lia.
Defined.
